(** * Group restaurant matcher: the client program [static/js/app.js]

    A shallow embedding of the client's state and event handlers, and the
    properties of the specification that are settled on it.

    Conventions of the embedding:
    - a JavaScript string is its sequence of UTF-16 code units ([jsstring]);
    - a JavaScript number that carries a rating or a score is a binary64
      float ([float], the kernel's primitive type), restaurant and user ids
      are integers ([Z]);
    - a [Map] or [Set] is an insertion-ordered list, as the language
      iterates them;
    - the page is the few elements the handlers write to: the alert boxes and
      the [matchingResults] container.  The grids that the [render*]
      functions rebuild from the state are functions of the state and are
      not part of it; neither are timers and the console;
    - an asynchronous handler is cut at its [await]: one function up to the
      request, one from the answer on. *)

From Stdlib Require Import String Ascii DecimalString.
From Stdlib Require Import List ZArith NArith Bool Lia.
From Stdlib Require Import Floats Permutation Sorted Orders Mergesort.
From Stdlib Require DecimalPos DecimalZ.
Import ListNotations.

Set Implicit Arguments.

(** A decimal literal stands for the nearest binary64 value, as it does in
    the source language. *)
Set Warnings "-inexact-float".

(** ** Strings *)

Definition jsstring := list N.

(** A literal of the source, as code units. *)
Definition str (s : string) : jsstring :=
  map (fun a => N_of_ascii a) (list_ascii_of_string s).

Definition jsstring_eq_dec : forall a b : jsstring, {a = b} + {a <> b} :=
  list_eq_dec N.eq_dec.

Definition jsstring_eqb (a b : jsstring) : bool :=
  if jsstring_eq_dec a b then true else false.

(** [String(id)] for an integer id, as in the template [`r-${id}`]: its
    decimal digits (the language writes integers from 10^21 on with an
    exponent; ids are far below). *)
Definition string_of_Z (z : Z) : jsstring :=
  str (NilZero.string_of_int (Z.to_int z)).

(** ECMAScript's WhiteSpace and LineTerminator code points, the ones
    [String.prototype.trim] strips. *)
Definition is_whitespace (c : N) : bool :=
  ((9 <=? c) && (c <=? 13) || (c =? 32) || (c =? 160) || (c =? 5760)
   || (8192 <=? c) && (c <=? 8202) || (c =? 8232) || (c =? 8233)
   || (c =? 8239) || (c =? 8287) || (c =? 12288) || (c =? 65279))%N.

Fixpoint trimStart (s : jsstring) : jsstring :=
  match s with
  | [] => []
  | c :: s' => if is_whitespace c then trimStart s' else s
  end.

Definition trimEnd (s : jsstring) : jsstring := rev (trimStart (rev s)).

Definition trim (s : jsstring) : jsstring := trimEnd (trimStart s).

(** [s.split(sep)] for a separator of one code unit: always at least one
    piece, empty pieces kept. *)
Fixpoint split (sep : N) (s : jsstring) : list jsstring :=
  match s with
  | [] => [[]]
  | c :: s' =>
      if (c =? sep)%N then [] :: split sep s'
      else match split sep s' with
           | [] => [[c]]
           | p :: ps => (c :: p) :: ps
           end
  end.

Definition comma : N := 44.

(** The order of [Array.prototype.sort] without a comparator: strings
    compared code unit by code unit, a proper prefix first. *)
Fixpoint jsstring_leb (a b : jsstring) : bool :=
  match a, b with
  | [], _ => true
  | _ :: _, [] => false
  | x :: a', y :: b' =>
      if (x <? y)%N then true
      else if (y <? x)%N then false
      else jsstring_leb a' b'
  end.

Module JSStringOrder <: TotalLeBool.
Definition t := jsstring.
Definition leb := jsstring_leb.
Lemma leb_total : forall a b, leb a b = true \/ leb b a = true.
Proof.
  induction a as [|x a IH]; destruct b as [|y b]; simpl; auto.
  destruct (N.ltb_spec x y); auto.
  destruct (N.ltb_spec y x); auto.
Qed.
End JSStringOrder.

Module JSStringSort := Sort JSStringOrder.

(** ** Sets and maps, in insertion order *)

Class EqKey (K : Type) := {
  keqb : K -> K -> bool;
  keqb_spec : forall a b, reflect (a = b) (keqb a b)
}.

#[export] Instance EqKey_Z : EqKey Z :=
  {| keqb := Z.eqb; keqb_spec := Z.eqb_spec |}.

Lemma jsstring_eqb_spec : forall a b, reflect (a = b) (jsstring_eqb a b).
Proof.
  intros a b. unfold jsstring_eqb.
  destruct (jsstring_eq_dec a b); constructor; assumption.
Qed.

#[export] Instance EqKey_jsstring : EqKey jsstring :=
  {| keqb := jsstring_eqb; keqb_spec := jsstring_eqb_spec |}.

Module JSSet.
Section Ops.
Context {K : Type} `{EqKey K}.

Definition t := list K.

Definition empty : t := [].

Definition has (k : K) (s : t) : bool := existsb (keqb k) s.

Definition add (k : K) (s : t) : t := if has k s then s else s ++ [k].

Definition delete (k : K) (s : t) : t := filter (fun x => negb (keqb k x)) s.

Definition size (s : t) : Z := Z.of_nat (length s).

(** [Array.from(s)], [s.forEach]. *)
Definition elements (s : t) : list K := s.

End Ops.
Arguments t : clear implicits.
End JSSet.

Module JSMap.
Section Ops.
Context {K V : Type} `{EqKey K}.

Definition t := list (K * V).

Definition empty : t := [].

Fixpoint get (k : K) (m : t) : option V :=
  match m with
  | [] => None
  | (k', v) :: m' => if keqb k k' then Some v else get k m'
  end.

Definition has (k : K) (m : t) : bool :=
  match get k m with Some _ => true | None => false end.

Fixpoint replace (k : K) (v : V) (m : t) : t :=
  match m with
  | [] => []
  | (k', v') :: m' =>
      if keqb k k' then (k', v) :: m' else (k', v') :: replace k v m'
  end.

(** [m.set(k, v)]: an existing key keeps its place, a new one goes last. *)
Definition set (k : K) (v : V) (m : t) : t :=
  if has k m then replace k v m else m ++ [(k, v)].

Definition delete (k : K) (m : t) : t :=
  filter (fun kv => negb (keqb k (fst kv))) m.

Definition size (m : t) : Z := Z.of_nat (length m).

(** [m.forEach((value, key) => ...)] visits [entries m] in order. *)
Definition entries (m : t) : list (K * V) := m.

End Ops.
Arguments t : clear implicits.
End JSMap.

(** ** Numbers *)

Open Scope float_scope.

Definition is_pos_zero (x : float) : bool :=
  match classify x with PZero => true | _ => false end.

Definition is_neg_zero (x : float) : bool :=
  match classify x with NZero => true | _ => false end.

(** [Math.max(...numbers)]: starts from -Infinity; a NaN argument makes the
    result NaN; +0 is above -0. *)
Fixpoint Math_max_from (highest : float) (numbers : list float) : float :=
  match numbers with
  | [] => highest
  | number :: rest =>
      if is_nan number then nan
      else if is_pos_zero number && is_neg_zero highest
           then Math_max_from number rest
      else if highest <? number then Math_max_from number rest
      else Math_max_from highest rest
  end.

Definition Math_max (numbers : list float) : float :=
  Math_max_from neg_infinity numbers.

(** [a || b] on strings: the empty string (like [undefined]) is falsy. *)
Definition or_else (a b : jsstring) : jsstring :=
  match a with [] => b | _ :: _ => a end.

(** ** Data *)

Module Restaurant.
Record t := { id : Z; name : jsstring; cuisine : jsstring; price : Z }.
End Restaurant.

(** A value of a user's day-of map: [{type: 'restaurant', id, rating}] or
    [{type: 'cuisine', id, rating}]. *)
Inductive dayof_rating :=
| DayofRestaurant (id : Z) (rating : float)
| DayofCuisine (id : jsstring) (rating : float).

(** [rating.rating = x]. *)
Definition dayof_set_rating (x : float) (r : dayof_rating) : dayof_rating :=
  match r with
  | DayofRestaurant i _ => DayofRestaurant i x
  | DayofCuisine c _ => DayofCuisine c x
  end.

(** An element of [ratings] in the body sent to [/api/matching]:
    [{restaurant_id, rating}] or [{cuisine, rating}]. *)
Inductive override_rating :=
| RestaurantRating (restaurant_id : Z) (rating : float)
| CuisineRating (cuisine : jsstring) (rating : float).

Record user_rating := { user_id : Z; ratings : list override_rating }.

(** The POST request of [callMagic]; its body is [{user_ratings}]. *)
Record request := { url : jsstring; user_ratings : list user_rating }.

(** An element of the answer of [/api/matching]: the array
    [[restaurant, cuisine, score]], whose first component the page prints as
    text. *)
Record match_entry := {
  match_restaurant : jsstring;
  match_cuisine : jsstring;
  match_score : float
}.

(** What the [await]s of [callMagic] can come back with. *)
Inductive response :=
| Rejected (message : jsstring)
| NotOk (error : jsstring)
| Ok (body : option (list match_entry)).

Inductive screen := ScreenCreate | ScreenList | ScreenMatching.

Inductive alert_type := AlertError | AlertSuccess | AlertWarning.

Inductive alert_element := createAlert | listAlert | dayofAlert.

Record alert := { alert_message : jsstring; alert_class : alert_type }.

(** One [match-card] of the result page.  [card_rating] is the number
    [rating]; the page prints [rating.toFixed(2)]. *)
Record card := {
  card_rank : Z;
  card_restaurant : jsstring;
  card_rating : float;
  card_scoreClass : jsstring;
  card_scoreColor : jsstring
}.

(** The content of the [matchingResults] container. *)
Inductive view :=
| EmptyState (text : jsstring)
| Cards (html : list card).

Record state := {
  restaurantRatings : JSMap.t Z float;
  cuisineRatings : JSMap.t jsstring float;
  dayofRatingsByUser : JSMap.t Z (JSMap.t jsstring dayof_rating);
  selectedUsers : JSSet.t Z;
  currentScreen : screen;
  allRestaurants : list Restaurant.t;
  allCuisines : list jsstring;
  lastSelectedUser : Z;
  matching : option (list match_entry);
  alerts : alert_element -> option alert;
  matchingResults : view
}.

Definition API_URL : jsstring := str "/api".

Definition set_restaurantRatings (x : JSMap.t Z float) (st : state) : state :=
  {| restaurantRatings := x; cuisineRatings := cuisineRatings st;
     dayofRatingsByUser := dayofRatingsByUser st;
     selectedUsers := selectedUsers st; currentScreen := currentScreen st;
     allRestaurants := allRestaurants st; allCuisines := allCuisines st;
     lastSelectedUser := lastSelectedUser st; matching := matching st;
     alerts := alerts st; matchingResults := matchingResults st |}.

Definition set_cuisineRatings (x : JSMap.t jsstring float) (st : state) : state :=
  {| restaurantRatings := restaurantRatings st; cuisineRatings := x;
     dayofRatingsByUser := dayofRatingsByUser st;
     selectedUsers := selectedUsers st; currentScreen := currentScreen st;
     allRestaurants := allRestaurants st; allCuisines := allCuisines st;
     lastSelectedUser := lastSelectedUser st; matching := matching st;
     alerts := alerts st; matchingResults := matchingResults st |}.

Definition set_dayofRatingsByUser
  (x : JSMap.t Z (JSMap.t jsstring dayof_rating)) (st : state) : state :=
  {| restaurantRatings := restaurantRatings st;
     cuisineRatings := cuisineRatings st; dayofRatingsByUser := x;
     selectedUsers := selectedUsers st; currentScreen := currentScreen st;
     allRestaurants := allRestaurants st; allCuisines := allCuisines st;
     lastSelectedUser := lastSelectedUser st; matching := matching st;
     alerts := alerts st; matchingResults := matchingResults st |}.

Definition set_selectedUsers (x : JSSet.t Z) (st : state) : state :=
  {| restaurantRatings := restaurantRatings st;
     cuisineRatings := cuisineRatings st;
     dayofRatingsByUser := dayofRatingsByUser st;
     selectedUsers := x; currentScreen := currentScreen st;
     allRestaurants := allRestaurants st; allCuisines := allCuisines st;
     lastSelectedUser := lastSelectedUser st; matching := matching st;
     alerts := alerts st; matchingResults := matchingResults st |}.

Definition set_currentScreen (x : screen) (st : state) : state :=
  {| restaurantRatings := restaurantRatings st;
     cuisineRatings := cuisineRatings st;
     dayofRatingsByUser := dayofRatingsByUser st;
     selectedUsers := selectedUsers st; currentScreen := x;
     allRestaurants := allRestaurants st; allCuisines := allCuisines st;
     lastSelectedUser := lastSelectedUser st; matching := matching st;
     alerts := alerts st; matchingResults := matchingResults st |}.

Definition set_allCuisines (x : list jsstring) (st : state) : state :=
  {| restaurantRatings := restaurantRatings st;
     cuisineRatings := cuisineRatings st;
     dayofRatingsByUser := dayofRatingsByUser st;
     selectedUsers := selectedUsers st; currentScreen := currentScreen st;
     allRestaurants := allRestaurants st; allCuisines := x;
     lastSelectedUser := lastSelectedUser st; matching := matching st;
     alerts := alerts st; matchingResults := matchingResults st |}.

Definition set_lastSelectedUser (x : Z) (st : state) : state :=
  {| restaurantRatings := restaurantRatings st;
     cuisineRatings := cuisineRatings st;
     dayofRatingsByUser := dayofRatingsByUser st;
     selectedUsers := selectedUsers st; currentScreen := currentScreen st;
     allRestaurants := allRestaurants st; allCuisines := allCuisines st;
     lastSelectedUser := x; matching := matching st;
     alerts := alerts st; matchingResults := matchingResults st |}.

Definition set_matching (x : option (list match_entry)) (st : state) : state :=
  {| restaurantRatings := restaurantRatings st;
     cuisineRatings := cuisineRatings st;
     dayofRatingsByUser := dayofRatingsByUser st;
     selectedUsers := selectedUsers st; currentScreen := currentScreen st;
     allRestaurants := allRestaurants st; allCuisines := allCuisines st;
     lastSelectedUser := lastSelectedUser st; matching := x;
     alerts := alerts st; matchingResults := matchingResults st |}.

Definition set_alerts (x : alert_element -> option alert) (st : state) : state :=
  {| restaurantRatings := restaurantRatings st;
     cuisineRatings := cuisineRatings st;
     dayofRatingsByUser := dayofRatingsByUser st;
     selectedUsers := selectedUsers st; currentScreen := currentScreen st;
     allRestaurants := allRestaurants st; allCuisines := allCuisines st;
     lastSelectedUser := lastSelectedUser st; matching := matching st;
     alerts := x; matchingResults := matchingResults st |}.

Definition set_matchingResults (x : view) (st : state) : state :=
  {| restaurantRatings := restaurantRatings st;
     cuisineRatings := cuisineRatings st;
     dayofRatingsByUser := dayofRatingsByUser st;
     selectedUsers := selectedUsers st; currentScreen := currentScreen st;
     allRestaurants := allRestaurants st; allCuisines := allCuisines st;
     lastSelectedUser := lastSelectedUser st; matching := matching st;
     alerts := alerts st; matchingResults := x |}.

(** ** Helper functions *)

Definition alert_element_eqb (a b : alert_element) : bool :=
  match a, b with
  | createAlert, createAlert | listAlert, listAlert
  | dayofAlert, dayofAlert => true
  | _, _ => false
  end.

(** [showAlert(elementId, message, type)] fills the element with the alert.
    The timer that empties it five seconds later is not modelled. *)
Definition showAlert (elementId : alert_element) (message : jsstring)
  (type : alert_type) (st : state) : state :=
  set_alerts
    (fun e => if alert_element_eqb e elementId
              then Some {| alert_message := message; alert_class := type |}
              else alerts st e)
    st.

(** [array.map((x, index) => f x index)]. *)
Fixpoint mapi_from {A B : Type} (f : A -> Z -> B) (index : Z) (l : list A)
  : list B :=
  match l with
  | [] => []
  | x :: l' => f x index :: mapi_from f (index + 1)%Z l'
  end.

Definition mapi {A B : Type} (f : A -> Z -> B) (l : list A) : list B :=
  mapi_from f 0%Z l.

(** The values the script starts with.  The [matchingResults] container
    starts without a card. *)
Definition initial_state : state :=
  {| restaurantRatings := JSMap.empty;
     cuisineRatings := JSMap.empty;
     dayofRatingsByUser := JSMap.empty;
     selectedUsers := JSSet.empty;
     currentScreen := ScreenCreate;
     allRestaurants := [];
     allCuisines := [];
     lastSelectedUser := (-1)%Z;
     matching := Some [];
     alerts := fun _ => None;
     matchingResults := Cards [] |}.

(** ** Navigation *)

(** [switchScreen(newScreen)].  [None] is the call without an argument; a
    string is truthy when it is not empty.  [loadUsers()], started on the way
    to the list screen, only fetches [allUsers], which the state leaves out. *)
Definition switchScreen (newScreen : option jsstring) (st : state) : state :=
  match newScreen with
  | Some (_ :: _) => set_currentScreen ScreenMatching st
  | _ =>
      match currentScreen st with
      | ScreenCreate => set_currentScreen ScreenList st
      | _ =>
          set_selectedUsers JSSet.empty
            (set_cuisineRatings JSMap.empty
               (set_restaurantRatings JSMap.empty
                  (set_currentScreen ScreenCreate st)))
      end
  end.

(** ** Cuisines *)

Definition extractCuisines (st : state) : state :=
  let cuisineSet :=
    fold_left
      (fun cuisineSet r =>
         let cuisines := map trim (split comma (Restaurant.cuisine r)) in
         fold_left
           (fun cuisineSet c =>
              match c with
              | [] => cuisineSet
              | _ :: _ => JSSet.add c cuisineSet
              end)
           cuisines cuisineSet)
      (allRestaurants st) JSSet.empty in
  set_allCuisines (JSStringSort.sort (JSSet.elements cuisineSet)) st.

Definition toggleCuisine (cuisine : jsstring) (st : state) : state :=
  if JSMap.has cuisine (cuisineRatings st)
  then set_cuisineRatings (JSMap.delete cuisine (cuisineRatings st)) st
  else set_cuisineRatings (JSMap.set cuisine 5.0 (cuisineRatings st)) st.

Definition removeCuisine (cuisine : jsstring) (st : state) : state :=
  set_cuisineRatings (JSMap.delete cuisine (cuisineRatings st)) st.

(** ** Restaurants *)

Definition toggleRestaurant (id : Z) (st : state) : state :=
  if JSMap.has id (restaurantRatings st)
  then set_restaurantRatings (JSMap.delete id (restaurantRatings st)) st
  else set_restaurantRatings (JSMap.set id 5.0 (restaurantRatings st)) st.

Definition removeRestaurant (id : Z) (st : state) : state :=
  set_restaurantRatings (JSMap.delete id (restaurantRatings st)) st.

(** ** Users *)

Definition toggleUser (id : Z) (st : state) : state :=
  if JSSet.has id (selectedUsers st)
  then set_lastSelectedUser (-1)
         (set_selectedUsers (JSSet.delete id (selectedUsers st)) st)
  else set_lastSelectedUser id
         (set_selectedUsers (JSSet.add id (selectedUsers st)) st).

Definition deselectAllUsers (st : state) : state :=
  set_lastSelectedUser (-1) (set_selectedUsers JSSet.empty st).

(** ** Day-of ratings *)

(** The inner [Map] of [dayofRatingsByUser] is an object that the handlers
    change in place; [store_dayofRatings] writes the changed map back under
    the key it was read from, which is what the shared reference amounts
    to. *)
Definition store_dayofRatings (dayofRatings : JSMap.t jsstring dayof_rating)
  (st : state) : state :=
  set_dayofRatingsByUser
    (JSMap.set (lastSelectedUser st) dayofRatings (dayofRatingsByUser st)) st.

Definition removeDayofRating (key : jsstring) (st : state) : state :=
  match JSMap.get (lastSelectedUser st) (dayofRatingsByUser st) with
  | None => st
  | Some dayofRatings => store_dayofRatings (JSMap.delete key dayofRatings) st
  end.

(** Both toggles first make sure that the last selected user has a map, then
    read it.  The [None] branch of the read is never taken: the key was stored
    just before. *)
Definition toggleDayofCuisine (cuisine : jsstring) (st : state) : state :=
  let key := str "c-" ++ cuisine in
  let st :=
    if negb (JSMap.has (lastSelectedUser st) (dayofRatingsByUser st))
    then set_dayofRatingsByUser
           (JSMap.set (lastSelectedUser st) JSMap.empty (dayofRatingsByUser st))
           st
    else st in
  match JSMap.get (lastSelectedUser st) (dayofRatingsByUser st) with
  | None => st
  | Some dayofRatings =>
      if JSMap.has key dayofRatings then removeDayofRating key st
      else if (JSMap.size dayofRatings >=? 3)%Z
           then showAlert dayofAlert
                  (str "Maximum 3 day-of ratings allowed!") AlertWarning st
      else store_dayofRatings
             (JSMap.set key (DayofCuisine cuisine 5.0) dayofRatings) st
  end.

Definition toggleDayofRestaurant (id : Z) (st : state) : state :=
  let key := str "r-" ++ string_of_Z id in
  let st :=
    if negb (JSMap.has (lastSelectedUser st) (dayofRatingsByUser st))
    then set_dayofRatingsByUser
           (JSMap.set (lastSelectedUser st) JSMap.empty (dayofRatingsByUser st))
           st
    else st in
  match JSMap.get (lastSelectedUser st) (dayofRatingsByUser st) with
  | None => st
  | Some dayofRatings =>
      if JSMap.has key dayofRatings then removeDayofRating key st
      else if (JSMap.size dayofRatings >=? 3)%Z
           then showAlert dayofAlert
                  (str "Maximum 3 day-of ratings allowed!") AlertWarning st
      else store_dayofRatings
             (JSMap.set key (DayofRestaurant id 5.0) dayofRatings) st
  end.

Section ParseFloat.

(** [parseFloat] of the language, applied to the value of a slider. *)
Variable parseFloat : jsstring -> float.

Definition updateDayofRating (key value : jsstring) (st : state) : state :=
  match JSMap.get (lastSelectedUser st) (dayofRatingsByUser st) with
  | None => st
  | Some dayofRatings =>
      match JSMap.get key dayofRatings with
      | Some rating =>
          store_dayofRatings
            (JSMap.set key (dayof_set_rating (parseFloat value) rating)
               dayofRatings)
            st
      | None => st
      end
  end.

End ParseFloat.

(** ** Matching *)

(** The body of the [forEach] of [callMagic]: a day-of rating as an element
    of the user's [ratings]. *)
Definition override_of (rating : dayof_rating) : override_rating :=
  match rating with
  | DayofRestaurant id r => RestaurantRating id r
  | DayofCuisine id r => CuisineRating id r
  end.

(** [callMagic] up to its first [await]: the state it leaves and the request
    it sends, if any. *)
Definition callMagic (st : state) : state * option request :=
  if (JSSet.size (selectedUsers st) <? 2)%Z then
    (showAlert listAlert
       (str "Please select at least 2 users to generate matches") AlertError st,
     None)
  else
    let userIds := JSSet.elements (selectedUsers st) in
    let userRatings :=
      map (fun userId =>
             let ratings :=
               match JSMap.get userId (dayofRatingsByUser st) with
               | Some dayofRatings =>
                   map (fun kv => override_of (snd kv))
                     (JSMap.entries dayofRatings)
               | None => []
               end in
             {| user_id := userId; ratings := ratings |})
        userIds in
    (showAlert listAlert (str "Generating matches...") AlertSuccess st,
     Some {| url := API_URL ++ str "/matching"; user_ratings := userRatings |}).

Definition score_style (rating : float) : jsstring * jsstring :=
  if rating <? 5 then (str "score-low", str "#dc3545")
  else if rating <? 7 then (str "score-medium", str "#ffc107")
  else (str "score-high", str "#28a745").

(** [html] is kept as the list of cards whose texts are joined; a card's text
    is never empty, so [filter(Boolean)] keeps every card and [!html] holds
    exactly when there is no card. *)
Definition renderMatchingList (st : state) : state :=
  match matching st with
  | None | Some [] =>
      set_matchingResults (EmptyState (str "No matching restaurants found")) st
  | Some matching =>
      let currMax := Math_max (map match_score matching) in
      let html :=
        mapi (fun match_ index =>
                let restaurant := match_restaurant match_ in
                let rating := 10 * match_score match_ / currMax in
                let (scoreClass, scoreColor) := score_style rating in
                {| card_rank := (index + 1)%Z;
                   card_restaurant := restaurant;
                   card_rating := rating;
                   card_scoreClass := scoreClass;
                   card_scoreColor := scoreColor |})
          matching in
      match html with
      | [] =>
          set_matchingResults
            (EmptyState (str "No valid restaurants found")) st
      | _ :: _ => set_matchingResults (Cards html) st
      end
  end.

(** [callMagic] from the answer of the server on: the [catch] shows the
    message of what was thrown. *)
Definition callMagic_resume (res : response) (st : state) : state :=
  let catch message :=
    showAlert listAlert
      (or_else message (str "Error generating matches")) AlertError st in
  match res with
  | Rejected message => catch message
  | NotOk error => catch (or_else error (str "Failed to generate matches"))
  | Ok body =>
      renderMatchingList
        (switchScreen (Some (str "matching")) (set_matching body st))
  end.

(** The whole handler against a server [fetch], when no other handler runs
    while the request is in flight. *)
Definition callMagic_with (fetch : request -> response) (st : state) : state :=
  match callMagic st with
  | (st', Some req) => callMagic_resume (fetch req) st'
  | (st', None) => st'
  end.

(** ** The backend, as the specification describes it *)

Module Backend.

(** Modelled from the spec: step 1 of the Preference Resolver (section 4.2),
    which runs on the server and is not part of the client source.  "If the
    caller supplied an explicit override rating list for this user for this
    match request (a day-of submission, possibly empty), that list is the
    effective preference set for the match; otherwise fall back to the user's
    stored base preferences."  [None] is a user without a supplied list. *)
Definition effectivePreferences
  (override_ratings : option (list override_rating))
  (base : list override_rating) : list override_rating :=
  match override_ratings with
  | Some supplied => supplied
  | None => base
  end.

(** Modelled from the spec: the reading of a [user_rating] of the request as
    an input of the match request of section 6,
    [{user_id, override_ratings?}]: the client always sends a list. *)
Definition supplied_override (u : user_rating) : option (list override_rating) :=
  Some (ratings u).

(** Modelled from the spec: the contributors of a restaurant (glossary), the
    users whose effective score for it is present.  The argument has one
    optional effective score per user of the group. *)
Definition contributions (effective : list (option float)) : list float :=
  flat_map (fun s => match s with Some x => [x] | None => [] end) effective.

(** Modelled from the spec: "product of all contributing users' effective
    scores", taken from the first score on, so that the product of one term
    is that term (section 4.3, edge case). *)
Definition product (scores : list float) : float :=
  match scores with
  | [] => 1
  | s :: rest => fold_left mul rest s
  end.

(** Modelled from the spec: the Group Aggregator (section 4.3), server code
    that the client source does not contain.  "For each restaurant with at
    least one contributing user, group score = product of all contributing
    users' effective scores"; a restaurant without a contributor has no
    score. *)
Definition groupScore (effective : list (option float)) : option float :=
  match contributions effective with
  | [] => None
  | scores => Some (product scores)
  end.

(** Modelled from the spec: the order of the Ranker (section 4.4), "sort by
    group score descending, ties broken by restaurant id ascending", on pairs
    of a restaurant id and its group score. *)
Definition ranks_before (a b : Z * float) : bool :=
  (snd b <? snd a) || ((snd a =? snd b) && (fst a <? fst b)%Z).

(** Modelled from the spec: the Ranker's sort (section 4.4) by that order,
    as an insertion sort. *)
Fixpoint rank_insert (a : Z * float) (ranked : list (Z * float))
  : list (Z * float) :=
  match ranked with
  | [] => [a]
  | b :: rest =>
      if ranks_before b a then b :: rank_insert a rest else a :: ranked
  end.

Definition rank (scored : list (Z * float)) : list (Z * float) :=
  fold_right rank_insert [] scored.

(** Modelled from the spec: the aggregations that section 4.3 rules out
    ("not sum/average"), for comparison. *)
Definition sum (scores : list float) : float := fold_left add scores 0.

Definition average (scores : list float) : float :=
  sum scores / of_uint63 (Uint63.of_Z (Z.of_nat (length scores))).

End Backend.

(** ** Definitions for the statements *)

(** *** Day-of ratings *)

(** The two toggles are one function of the key and of the object stored. *)
Definition toggleDayof (key : jsstring) (fresh : dayof_rating) (st : state)
  : state :=
  let st :=
    if negb (JSMap.has (lastSelectedUser st) (dayofRatingsByUser st))
    then set_dayofRatingsByUser
           (JSMap.set (lastSelectedUser st) JSMap.empty (dayofRatingsByUser st))
           st
    else st in
  match JSMap.get (lastSelectedUser st) (dayofRatingsByUser st) with
  | None => st
  | Some dayofRatings =>
      if JSMap.has key dayofRatings then removeDayofRating key st
      else if (JSMap.size dayofRatings >=? 3)%Z
           then showAlert dayofAlert
                  (str "Maximum 3 day-of ratings allowed!") AlertWarning st
      else store_dayofRatings (JSMap.set key fresh dayofRatings) st
  end.

(** The day-of operations of the page, to speak of all of them at once. *)
Inductive dayof_op :=
| ToggleDayofCuisine (cuisine : jsstring)
| ToggleDayofRestaurant (id : Z)
| UpdateDayofRating (key value : jsstring)
| RemoveDayofRating (key : jsstring).

Definition run_dayof_op (parseFloat : jsstring -> float) (op : dayof_op)
  (st : state) : state :=
  match op with
  | ToggleDayofCuisine cuisine => toggleDayofCuisine cuisine st
  | ToggleDayofRestaurant id => toggleDayofRestaurant id st
  | UpdateDayofRating key value => updateDayofRating parseFloat key value st
  | RemoveDayofRating key => removeDayofRating key st
  end.

(** What an operation leaves alone: the maps of the other users and
    everything that is not a day-of rating. *)
Definition dayof_frame (st st' : state) : Prop :=
  (forall user, user <> lastSelectedUser st ->
     JSMap.get user (dayofRatingsByUser st')
     = JSMap.get user (dayofRatingsByUser st))
  /\ restaurantRatings st' = restaurantRatings st
  /\ cuisineRatings st' = cuisineRatings st
  /\ selectedUsers st' = selectedUsers st
  /\ lastSelectedUser st' = lastSelectedUser st
  /\ matching st' = matching st.

(** The bound of the spec on a user's day-of ratings, for every user. *)
Definition within_capacity (st : state) : Prop :=
  forall user dayofRatings,
    JSMap.get user (dayofRatingsByUser st) = Some dayofRatings ->
    (JSMap.size dayofRatings <= 3)%Z.

(** The state of the page after user 1 was selected and chose "Thai",
    "Vegan" and restaurant 4 for the day. *)
Definition three_dayof_ratings : state :=
  toggleDayofRestaurant 4
    (toggleDayofCuisine (str "Vegan")
       (toggleDayofCuisine (str "Thai") (toggleUser 1 initial_state))).

(** User 2 selected as well, without day-of ratings. *)
Definition two_users_selected : state := toggleUser 2 three_dayof_ratings.

(** *** Cuisines *)

(** The derived set of cuisines in the words of the spec: the tags of the
    restaurants' comma-separated cuisine strings, trimmed, without the empty
    ones, each once. *)
Definition cuisine_tags (restaurants : list Restaurant.t) : list jsstring :=
  filter (fun tag => negb (jsstring_eqb tag []))
    (flat_map (fun r => map trim (split comma (Restaurant.cuisine r)))
       restaurants).

Definition listCuisines (restaurants : list Restaurant.t) : list jsstring :=
  nodup jsstring_eq_dec (cuisine_tags restaurants).

Definition add_tags (cuisineSet : JSSet.t jsstring) (cuisines : list jsstring)
  : JSSet.t jsstring :=
  fold_left
    (fun cuisineSet c =>
       match c with
       | [] => cuisineSet
       | _ :: _ => JSSet.add c cuisineSet
       end)
    cuisines cuisineSet.

(** The two loops of [extractCuisines]. *)
Definition collect (cuisineSet : JSSet.t jsstring)
  (restaurants : list Restaurant.t) : JSSet.t jsstring :=
  fold_left
    (fun cuisineSet r =>
       add_tags cuisineSet (map trim (split comma (Restaurant.cuisine r))))
    restaurants cuisineSet.

(** A catalog of three restaurants: tags with spaces around them, an empty
    piece, a repeated tag and two tags that differ in case only. *)
Definition catalog : list Restaurant.t :=
  [ {| Restaurant.id := 1; Restaurant.name := str "Bangkok Garden";
       Restaurant.cuisine := str "Thai, Vegan"; Restaurant.price := 2 |};
    {| Restaurant.id := 2; Restaurant.name := str "Green Bowl";
       Restaurant.cuisine := str " Vegan ,,thai"; Restaurant.price := 1 |};
    {| Restaurant.id := 3; Restaurant.name := str "Sakura";
       Restaurant.cuisine := str "Sushi"; Restaurant.price := 3 |} ].

Definition with_catalog (st : state) : state :=
  {| restaurantRatings := restaurantRatings st;
     cuisineRatings := cuisineRatings st;
     dayofRatingsByUser := dayofRatingsByUser st;
     selectedUsers := selectedUsers st; currentScreen := currentScreen st;
     allRestaurants := catalog; allCuisines := allCuisines st;
     lastSelectedUser := lastSelectedUser st; matching := matching st;
     alerts := alerts st; matchingResults := matchingResults st |}.

(** *** The result page *)

Definition no_NaN (numbers : list float) : bool :=
  forallb (fun x => negb (is_nan x)) numbers.




(** The card of [renderMatchingList] for one entry. *)
Definition match_card (currMax : float) (match_ : match_entry) (index : Z)
  : card :=
  let restaurant := match_restaurant match_ in
  let rating := 10 * match_score match_ / currMax in
  let (scoreClass, scoreColor) := score_style rating in
  {| card_rank := (index + 1)%Z;
     card_restaurant := restaurant;
     card_rating := rating;
     card_scoreClass := scoreClass;
     card_scoreColor := scoreColor |}.


Definition with_matching (entries : list match_entry) : state :=
  set_matching (Some entries) initial_state.

(** A restaurant that five users give a 6 and one that four users give a 9
    and one user a 1, with the group scores of the spec's example. *)
Definition all_six : match_entry :=
  {| match_restaurant := str "Green Bowl"; match_cuisine := str "Vegan";
     match_score := 7776 |}.

Definition mostly_liked : match_entry :=
  {| match_restaurant := str "Sakura"; match_cuisine := str "Sushi";
     match_score := 6561 |}.


Definition rated (score : float) : match_entry :=
  {| match_restaurant := str "Sakura"; match_cuisine := str "Sushi";
     match_score := score |}.

(** ** The other handlers of the script *)

Definition set_allRestaurants (x : list Restaurant.t) (st : state) : state :=
  {| restaurantRatings := restaurantRatings st;
     cuisineRatings := cuisineRatings st;
     dayofRatingsByUser := dayofRatingsByUser st;
     selectedUsers := selectedUsers st; currentScreen := currentScreen st;
     allRestaurants := x; allCuisines := allCuisines st;
     lastSelectedUser := lastSelectedUser st; matching := matching st;
     alerts := alerts st; matchingResults := matchingResults st |}.

(** [loadRestaurants] from the answer of [GET /api/restaurants] on: the
    decoded list, or a throw of [fetch] or [res.json()]. *)
Inductive restaurants_response :=
| RestaurantsRejected
| RestaurantsJson (restaurants : list Restaurant.t).

Definition loadRestaurants_resume (res : restaurants_response) (st : state)
  : state :=
  match res with
  | RestaurantsJson restaurants =>
      extractCuisines (set_allRestaurants restaurants st)
  | RestaurantsRejected =>
      showAlert createAlert (str "Error loading restaurants") AlertError st
  end.

Section SliderHandlers.

Variable parseFloat : jsstring -> float.

(** The two slider handlers of the form.  They also write the text of the
    element that shows the rating, which is not part of the state. *)
Definition updateCuisineRating (cuisine value : jsstring) (st : state)
  : state :=
  let floatValue := parseFloat value in
  set_cuisineRatings (JSMap.set cuisine floatValue (cuisineRatings st)) st.

Definition updateRating (id : Z) (value : jsstring) (st : state) : state :=
  let floatValue := parseFloat value in
  set_restaurantRatings (JSMap.set id floatValue (restaurantRatings st)) st.

End SliderHandlers.

(** [selectAllUsers()].  [allUsers] is the list last fetched by [loadUsers],
    which the state leaves out: the argument is the ids of its users, in
    order. *)
Definition selectAllUsers (allUsers : list Z) (st : state) : state :=
  set_selectedUsers
    (fold_left (fun selected id => JSSet.add id selected) allUsers
       (selectedUsers st))
    st.

(** [updateDayofSection()]: whether it leaves the day-of section shown. *)
Definition updateDayofSection (st : state) : bool :=
  if (JSSet.size (selectedUsers st) =? 0)%Z
     || (lastSelectedUser st =? -1)%Z
  then false else true.

(** The map that the [renderDayof*] functions read: the one of the last
    selected user, or a new empty one. *)
Definition shown_dayofRatings (st : state) : JSMap.t jsstring dayof_rating :=
  match JSMap.get (lastSelectedUser st) (dayofRatingsByUser st) with
  | Some dayofRatings => dayofRatings
  | None => JSMap.empty
  end.

(** [renderDayofCuisines()]: the cards of the grid, each cuisine with whether
    its card is marked [dayof-selected]; [None] is the text "No cuisines". *)
Definition renderDayofCuisines (st : state) : option (list (jsstring * bool)) :=
  match allCuisines st with
  | [] => None
  | _ :: _ =>
      let dayofRatings := shown_dayofRatings st in
      Some (map (fun cuisine =>
                   let key := str "c-" ++ cuisine in
                   let isSelected := JSMap.has key dayofRatings in
                   (cuisine, isSelected))
              (allCuisines st))
  end.

(** [renderDayofRestaurants()], likewise; [None] is "No restaurants". *)
Definition renderDayofRestaurants (st : state)
  : option (list (Restaurant.t * bool)) :=
  match allRestaurants st with
  | [] => None
  | _ :: _ =>
      let dayofRatings := shown_dayofRatings st in
      Some (map (fun rest =>
                   let key := str "r-" ++ string_of_Z (Restaurant.id rest) in
                   let isSelected := JSMap.has key dayofRatings in
                   (rest, isSelected))
              (allRestaurants st))
  end.

(** [renderDayofSelected()]: the text of the counter and the ratings that get
    an item, in order.  A cuisine always gets one; a restaurant gets one when
    [allRestaurants.find] finds its id. *)
Definition renderDayofSelected (st : state) : jsstring * list dayof_rating :=
  match JSMap.get (lastSelectedUser st) (dayofRatingsByUser st) with
  | None => (str "0/3", [])
  | Some dayofRatings =>
      (string_of_Z (JSMap.size dayofRatings) ++ str "/3",
       filter (fun rating =>
                 match rating with
                 | DayofCuisine _ _ => true
                 | DayofRestaurant id _ =>
                     existsb (fun r => (Restaurant.id r =? id)%Z)
                       (allRestaurants st)
                 end)
         (map snd (JSMap.entries dayofRatings)))
  end.

(** The body of [POST /api/users]. *)
Record create_request := {
  username : jsstring;
  preferences : list (Z * float);
  cuisine_preferences : list (jsstring * float)
}.

Inductive create_response :=
| CreateRejected
| CreateNotOk (error : jsstring)
| CreateOk.

(** [createUser(e)] up to its first [await]; [username] is the value of the
    form field. *)
Definition createUser (username : jsstring) (st : state)
  : state * option create_request :=
  if (JSMap.size (restaurantRatings st) =? 0)%Z
     && (JSMap.size (cuisineRatings st) =? 0)%Z
  then
    (showAlert createAlert
       (str "Please select at least one restaurant or cuisine") AlertError st,
     None)
  else
    let restaurantPreferences := JSMap.entries (restaurantRatings st) in
    let cuisinePreferences := JSMap.entries (cuisineRatings st) in
    (st,
     Some {| username := username;
             preferences := restaurantPreferences;
             cuisine_preferences := cuisinePreferences |}).

(** [createUser] from the answer on.  A body of a failed answer that cannot
    be decoded throws like a rejected fetch. *)
Definition createUser_resume (res : create_response) (st : state) : state :=
  match res with
  | CreateOk =>
      let totalPrefs :=
        (JSMap.size (restaurantRatings st) + JSMap.size (cuisineRatings st))%Z in
      set_cuisineRatings JSMap.empty
        (set_restaurantRatings JSMap.empty
           (showAlert createAlert
              (str "User created with " ++ string_of_Z totalPrefs
               ++ str " preferences!")
              AlertSuccess st))
  | CreateNotOk error =>
      showAlert createAlert (or_else error (str "Error creating user"))
        AlertError st
  | CreateRejected =>
      showAlert createAlert (str "Error creating user") AlertError st
  end.

(** What a [DELETE /api/users/id] comes back with: [res.ok], or a throw. *)
Inductive delete_response := DeleteRejected | DeleteDone (ok : bool).

(** [deleteSelectedUsers()], against the dialog [confirm] and a server
    [fetch], when no other handler runs between its requests: the state it
    leaves and the urls it requests, in order.  [loadUsers()], which it starts
    at the end, only fetches [allUsers]. *)
Definition deleteSelectedUsers (confirm : jsstring -> bool)
  (fetch : jsstring -> delete_response) (st : state) : state * list jsstring :=
  if (JSSet.size (selectedUsers st) =? 0)%Z then
    (showAlert listAlert (str "No users selected") AlertError st, [])
  else if negb (confirm (str "Delete "
                         ++ string_of_Z (JSSet.size (selectedUsers st))
                         ++ str " user(s)?"))
  then (st, [])
  else
    let urls :=
      map (fun userId => API_URL ++ str "/users/" ++ string_of_Z userId)
        (JSSet.elements (selectedUsers st)) in
    let successCount :=
      fold_left
        (fun successCount url =>
           match fetch url with
           | DeleteDone true => (successCount + 1)%Z
           | _ => successCount
           end)
        urls 0%Z in
    (set_selectedUsers JSSet.empty
       (showAlert listAlert
          (str "Successfully deleted " ++ string_of_Z successCount
           ++ str " user(s)")
          AlertSuccess st),
     urls).

(** An element of [ratings] in the body of [POST /api/day-of-ratings/bulk]:
    [{user_id, rating, restaurant_id}] or [{user_id, rating, cuisine}]. *)
Record bulk_rating := { bulk_user_id : Z; bulk_rating_of : override_rating }.

(** [saveAllDayofRatings()] up to its [await]: the ratings it sends, if it
    sends a request. *)
Definition saveAllDayofRatings (st : state) : option (list bulk_rating) :=
  if negb (JSSet.size (selectedUsers st) =? 1)%Z then None
  else
    match JSSet.elements (selectedUsers st) with
    | [] => None
    | userId :: _ =>
        match JSMap.get (lastSelectedUser st) (dayofRatingsByUser st) with
        | None => None
        | Some dayofRatings =>
            Some (map (fun kv =>
                         {| bulk_user_id := userId;
                            bulk_rating_of := override_of (snd kv) |})
                    (JSMap.entries dayofRatings))
        end
    end.

(** [saveAllDayofRatings] from the answer on; the status of the answer is
    not read, only a throw of [fetch] reaches the [catch]. *)
Definition saveAllDayofRatings_resume (rejected : bool) (st : state) : state :=
  if rejected
  then showAlert dayofAlert (str "Error saving ratings") AlertError st
  else showAlert dayofAlert (str "All day-of ratings saved!") AlertSuccess st.

(** *** Events *)

(** The handlers as the events of the page, each with what the page supplies:
    the arguments of the call, the value of a field, the list of users, the
    answer of the dialog or of the server.  A handler that awaits is two
    events, so that other events can come in between. *)
Inductive event :=
| SwitchScreen (newScreen : option jsstring)
| LoadedRestaurants (res : restaurants_response)
| ToggleCuisine (cuisine : jsstring)
| UpdateCuisineRating (cuisine value : jsstring)
| RemoveCuisine (cuisine : jsstring)
| ToggleRestaurant (id : Z)
| UpdateRating (id : Z) (value : jsstring)
| RemoveRestaurant (id : Z)
| CreateUser (username : jsstring)
| CreatedUser (res : create_response)
| ToggleUser (id : Z)
| SelectAllUsers (allUsers : list Z)
| DeselectAllUsers
| DeleteSelectedUsers (confirm : jsstring -> bool)
    (fetch : jsstring -> delete_response)
| Dayof (op : dayof_op)
| SavedAllDayofRatings (rejected : bool)
| CallMagic
| CalledMagic (res : response).

Definition handle (parseFloat : jsstring -> float) (e : event) (st : state)
  : state :=
  match e with
  | SwitchScreen newScreen => switchScreen newScreen st
  | LoadedRestaurants res => loadRestaurants_resume res st
  | ToggleCuisine cuisine => toggleCuisine cuisine st
  | UpdateCuisineRating cuisine value =>
      updateCuisineRating parseFloat cuisine value st
  | RemoveCuisine cuisine => removeCuisine cuisine st
  | ToggleRestaurant id => toggleRestaurant id st
  | UpdateRating id value => updateRating parseFloat id value st
  | RemoveRestaurant id => removeRestaurant id st
  | CreateUser username => fst (createUser username st)
  | CreatedUser res => createUser_resume res st
  | ToggleUser id => toggleUser id st
  | SelectAllUsers allUsers => selectAllUsers allUsers st
  | DeselectAllUsers => deselectAllUsers st
  | DeleteSelectedUsers confirm fetch =>
      fst (deleteSelectedUsers confirm fetch st)
  | Dayof op => run_dayof_op parseFloat op st
  | SavedAllDayofRatings rejected => saveAllDayofRatings_resume rejected st
  | CallMagic => fst (callMagic st)
  | CalledMagic res => callMagic_resume res st
  end.

(** The state after a sequence of events, from the start of the script. *)
Definition run (parseFloat : jsstring -> float) (events : list event) : state :=
  fold_left (fun st e => handle parseFloat e st) events initial_state.

(** The key under which the toggles store a day-of rating. *)
Definition dayof_key (rating : dayof_rating) : jsstring :=
  match rating with
  | DayofRestaurant id _ => str "r-" ++ string_of_Z id
  | DayofCuisine cuisine _ => str "c-" ++ cuisine
  end.

(** What a rating is about, for the server. *)
Definition override_target (o : override_rating) : Z + jsstring :=
  match o with
  | RestaurantRating id _ => inl id
  | CuisineRating cuisine _ => inr cuisine
  end.

(** A day-of map as the toggles build it: every entry under the key of its
    own target, no key twice, three entries at most. *)
Definition dayof_map_ok (dayofRatings : JSMap.t jsstring dayof_rating) : Prop :=
  Forall (fun kv => fst kv = dayof_key (snd kv)) dayofRatings
  /\ NoDup (map fst dayofRatings)
  /\ (JSMap.size dayofRatings <= 3)%Z.

Definition state_ok (st : state) : Prop :=
  NoDup (selectedUsers st)
  /\ NoDup (map fst (restaurantRatings st))
  /\ NoDup (map fst (cuisineRatings st))
  /\ forall user dayofRatings,
       JSMap.get user (dayofRatingsByUser st) = Some dayofRatings ->
       dayof_map_ok dayofRatings.

(** The selection and the last selected user agree. *)
Definition selection_ok (st : state) : Prop :=
  lastSelectedUser st = (-1)%Z \/ In (lastSelectedUser st) (selectedUsers st).

(** ** More definitions for the statements *)

(** A form in which restaurant 7 is rated 8.5 and "Thai" 9. *)
Definition rated_form : state :=
  set_cuisineRatings [(str "Thai", 9.0)]
    (set_restaurantRatings [(7%Z, 8.5)] initial_state).


(** The clicks that lead to [two_users_selected]. *)
Definition two_users_clicks : list event :=
  [ToggleUser 1; Dayof (ToggleDayofCuisine (str "Thai"));
   Dayof (ToggleDayofCuisine (str "Vegan")); Dayof (ToggleDayofRestaurant 4);
   ToggleUser 2].

(** User 1 with the day-of ratings "Thai" at 8.5 and restaurant 4 at 5.0. *)
Definition thai_rated_high : state :=
  set_lastSelectedUser 1
    (set_selectedUsers [1%Z]
       (set_dayofRatingsByUser
          [(1%Z, [(str "c-Thai", DayofCuisine (str "Thai") 8.5);
                  (str "r-4", DayofRestaurant 4 5.0)])]
          initial_state)).

(** [allCuisines] is what [extractCuisines] derives from the catalog. *)
Definition cuisines_derived (st : state) : Prop :=
  allCuisines st = allCuisines (extractCuisines st).

(** * Properties *)

(** ** Maps and sets *)

Section JSMapFacts.
Context {K V : Type} `{EqKey K}.
Implicit Types (k : K) (v : V) (m : JSMap.t K V).

Lemma keqb_refl k : keqb k k = true.
Proof. destruct (keqb_spec k k); congruence. Qed.

Lemma keqb_neq k k' : k <> k' -> keqb k k' = false.
Proof. intros E. destruct (keqb_spec k k'); congruence. Qed.

Lemma has_get k m : JSMap.has k m = true <-> JSMap.get k m <> None.
Proof.
  unfold JSMap.has. destruct (JSMap.get k m); split; congruence.
Qed.

Lemma has_false_get k m : JSMap.has k m = false <-> JSMap.get k m = None.
Proof.
  unfold JSMap.has. destruct (JSMap.get k m); split; congruence.
Qed.

Lemma get_app_absent k m m' :
  JSMap.get k m = None -> JSMap.get k (m ++ m') = JSMap.get k m'.
Proof.
  induction m as [|[k0 v0] m IH]; simpl; auto.
  destruct (keqb k k0); [discriminate | assumption].
Qed.

Lemma get_app_present k v m m' :
  JSMap.get k m = Some v -> JSMap.get k (m ++ m') = Some v.
Proof.
  induction m as [|[k0 v0] m IH]; simpl; [discriminate|].
  destruct (keqb k k0); auto.
Qed.

Lemma get_replace_same k v m :
  JSMap.get k m <> None -> JSMap.get k (JSMap.replace k v m) = Some v.
Proof.
  induction m as [|[k0 v0] m IH]; simpl; [congruence|].
  destruct (keqb k k0) eqn:E; simpl; rewrite E; auto.
Qed.

Lemma get_replace_other k k' v m :
  k <> k' -> JSMap.get k' (JSMap.replace k v m) = JSMap.get k' m.
Proof.
  intros N. induction m as [|[k0 v0] m IH]; simpl; auto.
  destruct (keqb_spec k k0) as [->|]; simpl.
  - rewrite keqb_neq by congruence. reflexivity.
  - rewrite IH. reflexivity.
Qed.

Lemma replace_same_value k v m :
  JSMap.get k m = Some v -> JSMap.replace k v m = m.
Proof.
  induction m as [|[k0 v0] m IH]; simpl; auto.
  destruct (keqb_spec k k0) as [->|]; intros E.
  - congruence.
  - rewrite IH by assumption. reflexivity.
Qed.

Lemma length_replace k v m : length (JSMap.replace k v m) = length m.
Proof.
  induction m as [|[k0 v0] m IH]; simpl; auto.
  destruct (keqb k k0); simpl; auto.
Qed.

Lemma get_set_same k v m : JSMap.get k (JSMap.set k v m) = Some v.
Proof.
  unfold JSMap.set. destruct (JSMap.has k m) eqn:E.
  - apply get_replace_same. apply has_get. assumption.
  - apply has_false_get in E. rewrite get_app_absent by assumption.
    simpl. rewrite keqb_refl. reflexivity.
Qed.

Lemma get_set_other k k' v m :
  k <> k' -> JSMap.get k' (JSMap.set k v m) = JSMap.get k' m.
Proof.
  intros N. unfold JSMap.set. destruct (JSMap.has k m).
  - apply get_replace_other. assumption.
  - destruct (JSMap.get k' m) eqn:E.
    + apply get_app_present. assumption.
    + rewrite get_app_absent by assumption. simpl.
      rewrite keqb_neq by congruence. reflexivity.
Qed.

Lemma set_same_value k v m : JSMap.get k m = Some v -> JSMap.set k v m = m.
Proof.
  intros E. unfold JSMap.set.
  replace (JSMap.has k m) with true.
  - apply replace_same_value. assumption.
  - symmetry. apply has_get. congruence.
Qed.

Lemma get_delete_same k m : JSMap.get k (JSMap.delete k m) = None.
Proof.
  induction m as [|[k0 v0] m IH]; simpl; auto.
  destruct (keqb k k0) eqn:E; simpl; [|rewrite E]; assumption.
Qed.

Lemma get_delete_other k k' m :
  k <> k' -> JSMap.get k' (JSMap.delete k m) = JSMap.get k' m.
Proof.
  intros N. induction m as [|[k0 v0] m IH]; simpl; auto.
  destruct (keqb_spec k k0) as [->|]; simpl.
  - rewrite keqb_neq by congruence. assumption.
  - rewrite IH. reflexivity.
Qed.

Lemma delete_absent k m : JSMap.get k m = None -> JSMap.delete k m = m.
Proof.
  induction m as [|[k0 v0] m IH]; simpl; auto.
  destruct (keqb k k0); simpl; [discriminate|].
  intros E. rewrite IH by assumption. reflexivity.
Qed.

Lemma size_set_present k v m :
  JSMap.has k m = true -> JSMap.size (JSMap.set k v m) = JSMap.size m.
Proof.
  intros E. unfold JSMap.set, JSMap.size. rewrite E, length_replace.
  reflexivity.
Qed.

Lemma size_set_absent k v m :
  JSMap.has k m = false ->
  JSMap.size (JSMap.set k v m) = (JSMap.size m + 1)%Z.
Proof.
  intros E. unfold JSMap.set, JSMap.size. rewrite E, length_app. simpl. lia.
Qed.

Lemma size_delete k m : (JSMap.size (JSMap.delete k m) <= JSMap.size m)%Z.
Proof.
  unfold JSMap.size, JSMap.delete.
  pose proof (filter_length_le (fun kv => negb (keqb k (fst kv))) m). lia.
Qed.

End JSMapFacts.

Section JSSetFacts.
Context {K : Type} `{EqKey K}.

Lemma JSSet_has_In (k : K) (s : JSSet.t K) : JSSet.has k s = true <-> In k s.
Proof.
  unfold JSSet.has. rewrite existsb_exists. split.
  - intros (x & I & E). destruct (keqb_spec k x); congruence.
  - intros I. exists k. split; [assumption | apply keqb_refl].
Qed.

Lemma JSSet_add_In (k x : K) (s : JSSet.t K) :
  In x (JSSet.add k s) <-> x = k \/ In x s.
Proof.
  unfold JSSet.add. destruct (JSSet.has k s) eqn:E.
  - apply JSSet_has_In in E. intuition congruence.
  - rewrite in_app_iff. simpl. intuition congruence.
Qed.

Lemma JSSet_add_NoDup (k : K) (s : JSSet.t K) :
  NoDup s -> NoDup (JSSet.add k s).
Proof.
  intros ND. unfold JSSet.add. destruct (JSSet.has k s) eqn:E; [assumption|].
  apply NoDup_app; [assumption | repeat constructor; auto |].
  intros x I [E2 | []]. subst x.
  apply JSSet_has_In in I. congruence.
Qed.

End JSSetFacts.

(** ** Base preferences *)

Lemma set_dayofRatingsByUser_same st :
  set_dayofRatingsByUser (dayofRatingsByUser st) st = st.
Proof. destruct st; reflexivity. Qed.

(** C9.  Toggling a restaurant, or a cuisine, of the base preferences
    changes the entry of that id only: an absent id gets the rating 5.0, a
    present one is removed; every other entry of the same map and the whole
    of the other map stay as they were. *)
Theorem toggle_changes_one_entry :
  forall (st : state),
    (forall id : Z,
        let st' := toggleRestaurant id st in
        JSMap.get id (restaurantRatings st')
        = (if JSMap.has id (restaurantRatings st) then None else Some 5.0)
        /\ (forall id', id' <> id ->
              JSMap.get id' (restaurantRatings st')
              = JSMap.get id' (restaurantRatings st))
        /\ cuisineRatings st' = cuisineRatings st)
    /\
    (forall cuisine : jsstring,
        let st' := toggleCuisine cuisine st in
        JSMap.get cuisine (cuisineRatings st')
        = (if JSMap.has cuisine (cuisineRatings st) then None else Some 5.0)
        /\ (forall cuisine', cuisine' <> cuisine ->
              JSMap.get cuisine' (cuisineRatings st')
              = JSMap.get cuisine' (cuisineRatings st))
        /\ restaurantRatings st' = restaurantRatings st).
Proof.
  intros st. split.
  - intros id st'. subst st'. unfold toggleRestaurant.
    destruct (JSMap.has id (restaurantRatings st)); cbn; repeat split; intros.
    + apply get_delete_same.
    + apply get_delete_other. congruence.
    + apply get_set_same.
    + apply get_set_other. congruence.
  - intros cuisine st'. subst st'. unfold toggleCuisine.
    destruct (JSMap.has cuisine (cuisineRatings st)); cbn;
      repeat split; intros.
    + apply get_delete_same.
    + apply get_delete_other. congruence.
    + apply get_set_same.
    + apply get_set_other. congruence.
Qed.

(** An instance of C9: with restaurant 7 and "Thai" selected, selecting
    restaurant 3 adds it at 5.0 and keeps the other two entries. *)
Lemma toggle_changes_one_entry_witness :
  let st0 := toggleCuisine (str "Thai") (toggleRestaurant 7 initial_state) in
  JSMap.get 3%Z (restaurantRatings (toggleRestaurant 3 st0)) = Some 5.0
  /\ JSMap.get 7%Z (restaurantRatings (toggleRestaurant 3 st0)) = Some 5.0
  /\ cuisineRatings (toggleRestaurant 3 st0) = [(str "Thai", 5.0)].
Proof.
  intros st0.
  destruct (proj1 (toggle_changes_one_entry st0) 3%Z) as (A & B & C).
  rewrite A, (B 7%Z), C by lia. repeat split.
Defined.

(** ** Day-of ratings *)

Lemma toggleDayofCuisine_unfold cuisine st :
  toggleDayofCuisine cuisine st
  = toggleDayof (str "c-" ++ cuisine) (DayofCuisine cuisine 5.0) st.
Proof. reflexivity. Qed.

Lemma toggleDayofRestaurant_unfold id st :
  toggleDayofRestaurant id st
  = toggleDayof (str "r-" ++ string_of_Z id) (DayofRestaurant id 5.0) st.
Proof. reflexivity. Qed.

Lemma dayof_frame_refl st : dayof_frame st st.
Proof. repeat split. Qed.

Lemma dayof_frame_store dayofRatings st :
  dayof_frame st (store_dayofRatings dayofRatings st).
Proof.
  repeat split. intros user N. cbn. apply get_set_other. congruence.
Qed.

Lemma dayof_frame_showAlert e message type st :
  dayof_frame st (showAlert e message type st).
Proof. repeat split. Qed.

Lemma dayof_frame_trans st1 st2 st3 :
  dayof_frame st1 st2 -> dayof_frame st2 st3 -> dayof_frame st1 st3.
Proof.
  intros (A1 & B1 & C1 & D1 & E1 & F1) (A2 & B2 & C2 & D2 & E2 & F2).
  repeat split; try congruence.
  intros user N. rewrite A2 by congruence. apply A1. assumption.
Qed.

Lemma removeDayofRating_frame key st :
  dayof_frame st (removeDayofRating key st).
Proof.
  unfold removeDayofRating.
  destruct (JSMap.get (lastSelectedUser st) (dayofRatingsByUser st)).
  - apply dayof_frame_store.
  - apply dayof_frame_refl.
Qed.

Lemma updateDayofRating_frame parseFloat key value st :
  dayof_frame st (updateDayofRating parseFloat key value st).
Proof.
  unfold updateDayofRating.
  destruct (JSMap.get (lastSelectedUser st) (dayofRatingsByUser st)) as [m|].
  - destruct (JSMap.get key m).
    + apply dayof_frame_store.
    + apply dayof_frame_refl.
  - apply dayof_frame_refl.
Qed.

Lemma toggleDayof_frame key fresh st : dayof_frame st (toggleDayof key fresh st).
Proof.
  unfold toggleDayof.
  set (st1 := if negb (JSMap.has _ _) then _ else st).
  assert (F1 : dayof_frame st st1).
  { subst st1. destruct (negb _).
    - repeat split. intros user N. cbn. apply get_set_other. congruence.
    - apply dayof_frame_refl. }
  apply dayof_frame_trans with st1; [assumption|].
  destruct (JSMap.get (lastSelectedUser st1) (dayofRatingsByUser st1)) as [m|].
  - destruct (JSMap.has key m).
    + apply removeDayofRating_frame.
    + destruct (JSMap.size m >=? 3)%Z.
      * apply dayof_frame_showAlert.
      * apply dayof_frame_store.
  - apply dayof_frame_refl.
Qed.

(** The read at the head of the toggles always finds a map. *)
Lemma toggleDayof_read st :
  let st1 :=
    if negb (JSMap.has (lastSelectedUser st) (dayofRatingsByUser st))
    then set_dayofRatingsByUser
           (JSMap.set (lastSelectedUser st) JSMap.empty (dayofRatingsByUser st))
           st
    else st in
  JSMap.get (lastSelectedUser st1) (dayofRatingsByUser st1) <> None.
Proof.
  cbv zeta.
  destruct (JSMap.has (lastSelectedUser st) (dayofRatingsByUser st)) eqn:E; cbn.
  - apply has_get. assumption.
  - rewrite get_set_same. discriminate.
Qed.

Lemma toggleDayof_full key fresh st dayofRatings :
  JSMap.get (lastSelectedUser st) (dayofRatingsByUser st) = Some dayofRatings ->
  JSMap.has key dayofRatings = false ->
  (3 <= JSMap.size dayofRatings)%Z ->
  toggleDayof key fresh st
  = showAlert dayofAlert (str "Maximum 3 day-of ratings allowed!")
      AlertWarning st.
Proof.
  intros G A S. unfold toggleDayof.
  replace (JSMap.has (lastSelectedUser st) (dayofRatingsByUser st)) with true
    by (symmetry; apply has_get; congruence).
  cbn [negb]. rewrite G, A.
  destruct (Z.geb_spec (JSMap.size dayofRatings) 3); [reflexivity | lia].
Qed.

(** C2.  When the last selected user already has three day-of ratings (or
    more), toggling a cuisine or a restaurant that is not among them adds
    nothing: the handler shows the warning "Maximum 3 day-of ratings
    allowed!" in the day-of alert box and returns, so that the map of every
    user, this one's three ratings included, is what it was. *)
Theorem fourth_dayof_rating_rejected :
  forall (st : state) (dayofRatings : JSMap.t jsstring dayof_rating),
    JSMap.get (lastSelectedUser st) (dayofRatingsByUser st) = Some dayofRatings ->
    JSMap.size dayofRatings = 3%Z ->
    (forall cuisine,
        JSMap.has (str "c-" ++ cuisine) dayofRatings = false ->
        let st' := toggleDayofCuisine cuisine st in
        alerts st' dayofAlert
        = Some {| alert_message := str "Maximum 3 day-of ratings allowed!";
                  alert_class := AlertWarning |}
        /\ dayofRatingsByUser st' = dayofRatingsByUser st
        /\ JSMap.get (lastSelectedUser st') (dayofRatingsByUser st')
           = Some dayofRatings)
    /\
    (forall id,
        JSMap.has (str "r-" ++ string_of_Z id) dayofRatings = false ->
        let st' := toggleDayofRestaurant id st in
        alerts st' dayofAlert
        = Some {| alert_message := str "Maximum 3 day-of ratings allowed!";
                  alert_class := AlertWarning |}
        /\ dayofRatingsByUser st' = dayofRatingsByUser st
        /\ JSMap.get (lastSelectedUser st') (dayofRatingsByUser st')
           = Some dayofRatings).
Proof.
  intros st dayofRatings G S. split.
  - intros cuisine A st'. subst st'.
    rewrite toggleDayofCuisine_unfold,
      (toggleDayof_full _ _ _ G A) by lia.
    cbn. auto.
  - intros id A st'. subst st'.
    rewrite toggleDayofRestaurant_unfold,
      (toggleDayof_full _ _ _ G A) by lia.
    cbn. auto.
Qed.

(** An instance of C2: a fourth rating, the cuisine "Sushi", for the user
    of [three_dayof_ratings]. *)
Lemma fourth_dayof_rating_rejected_witness :
  let st' := toggleDayofCuisine (str "Sushi") three_dayof_ratings in
  alerts st' dayofAlert
  = Some {| alert_message := str "Maximum 3 day-of ratings allowed!";
            alert_class := AlertWarning |}
  /\ dayofRatingsByUser st' = dayofRatingsByUser three_dayof_ratings
  /\ JSMap.get 1%Z (dayofRatingsByUser st')
     = Some [(str "c-Thai", DayofCuisine (str "Thai") 5.0);
             (str "c-Vegan", DayofCuisine (str "Vegan") 5.0);
             (str "r-4", DayofRestaurant 4 5.0)].
Proof.
  refine (proj1 (fourth_dayof_rating_rejected three_dayof_ratings
                   (dayofRatings :=
                      [(str "c-Thai", DayofCuisine (str "Thai") 5.0);
                       (str "c-Vegan", DayofCuisine (str "Vegan") 5.0);
                       (str "r-4", DayofRestaurant 4 5.0)])
                   _ _) (str "Sushi") _);
    reflexivity.
Defined.

(** C10.  Each day-of operation changes at most the day-of map of the last
    selected user: the map of every other user, the base ratings, the
    selection and the last match result are as before.  Updating or removing
    a rating is no change at all when that user has no map or the map has no
    such key. *)
Theorem dayof_ops_touch_last_selected_only :
  forall (parseFloat : jsstring -> float) (st : state),
    (forall op, dayof_frame st (run_dayof_op parseFloat op st))
    /\
    (forall key value,
        (JSMap.get (lastSelectedUser st) (dayofRatingsByUser st) = None
         \/ exists dayofRatings,
             JSMap.get (lastSelectedUser st) (dayofRatingsByUser st)
             = Some dayofRatings
             /\ JSMap.get key dayofRatings = None) ->
        updateDayofRating parseFloat key value st = st
        /\ removeDayofRating key st = st).
Proof.
  intros parseFloat st. split.
  - intros [cuisine | id | key value | key]; cbn [run_dayof_op].
    + rewrite toggleDayofCuisine_unfold. apply toggleDayof_frame.
    + rewrite toggleDayofRestaurant_unfold. apply toggleDayof_frame.
    + apply updateDayofRating_frame.
    + apply removeDayofRating_frame.
  - intros key value [G | (m & G & A)];
      unfold updateDayofRating, removeDayofRating; rewrite G; auto.
    rewrite A. split; [reflexivity|].
    unfold store_dayofRatings.
    rewrite delete_absent, set_same_value by assumption.
    apply set_dayofRatingsByUser_same.
Qed.

(** An instance of C10: user 2 becomes the last selected user after user 1
    chose three ratings; removing or updating a key that user 2 does not have
    changes nothing, and a toggle by user 2 leaves the ratings of user 1. *)
Lemma dayof_ops_touch_last_selected_only_witness :
  let st := toggleUser 2 three_dayof_ratings in
  let parseFloat := fun _ : jsstring => 7.5 in
  updateDayofRating parseFloat (str "c-Thai") (str "7.5") st = st
  /\ removeDayofRating (str "c-Thai") st = st
  /\ JSMap.get 1%Z
       (dayofRatingsByUser
          (run_dayof_op parseFloat (ToggleDayofCuisine (str "Thai")) st))
     = JSMap.get 1%Z (dayofRatingsByUser st).
Proof.
  intros st parseFloat.
  destruct (dayof_ops_touch_last_selected_only parseFloat st) as [F N].
  destruct (N (str "c-Thai") (str "7.5")) as [U R].
  - left. reflexivity.
  - split; [exact U | split; [exact R |]].
    apply (F (ToggleDayofCuisine (str "Thai"))). discriminate.
Defined.

(** ** The capacity of the day-of maps *)

Lemma within_capacity_store dayofRatings st :
  within_capacity st ->
  (JSMap.size dayofRatings <= 3)%Z ->
  within_capacity (store_dayofRatings dayofRatings st).
Proof.
  intros W S user m. cbn.
  destruct (Z.eq_dec (lastSelectedUser st) user) as [<- | N].
  - rewrite get_set_same. intros [= <-]. assumption.
  - rewrite get_set_other by assumption. apply W.
Qed.

Lemma within_capacity_removeDayofRating key st :
  within_capacity st -> within_capacity (removeDayofRating key st).
Proof.
  intros W. unfold removeDayofRating.
  destruct (JSMap.get (lastSelectedUser st) (dayofRatingsByUser st))
    as [m|] eqn:G; [|assumption].
  apply within_capacity_store; [assumption|].
  pose proof (size_delete key m). pose proof (W _ _ G). lia.
Qed.

Lemma within_capacity_toggleDayof key fresh st :
  within_capacity st -> within_capacity (toggleDayof key fresh st).
Proof.
  intros W. unfold toggleDayof.
  set (st1 := if negb (JSMap.has _ _) then _ else st).
  assert (W1 : within_capacity st1).
  { subst st1. destruct (negb _); [|assumption].
    intros user m. cbn.
    destruct (Z.eq_dec (lastSelectedUser st) user) as [<- | N].
    - rewrite get_set_same. intros [= <-]. cbn. lia.
    - rewrite get_set_other by assumption. apply W. }
  destruct (JSMap.get (lastSelectedUser st1) (dayofRatingsByUser st1))
    as [m|] eqn:G; [|assumption].
  destruct (JSMap.has key m) eqn:A.
  - apply within_capacity_removeDayofRating. assumption.
  - destruct (Z.geb_spec (JSMap.size m) 3); [exact W1|].
    apply within_capacity_store; [assumption|].
    rewrite size_set_absent by assumption. lia.
Qed.

(** No day-of operation takes a map beyond three ratings; the other handlers
    do not write [dayofRatingsByUser] at all. *)
Lemma dayof_ops_keep_capacity parseFloat op st :
  within_capacity st -> within_capacity (run_dayof_op parseFloat op st).
Proof.
  intros W. destruct op as [cuisine | id | key value | key]; cbn [run_dayof_op].
  - rewrite toggleDayofCuisine_unfold. apply within_capacity_toggleDayof, W.
  - rewrite toggleDayofRestaurant_unfold. apply within_capacity_toggleDayof, W.
  - unfold updateDayofRating.
    destruct (JSMap.get (lastSelectedUser st) (dayofRatingsByUser st))
      as [m|] eqn:G; [|assumption].
    destruct (JSMap.get key m) as [rating|] eqn:A; [|assumption].
    apply within_capacity_store; [assumption|].
    rewrite size_set_present by (apply has_get; congruence).
    apply (W _ _ G).
  - apply within_capacity_removeDayofRating, W.
Qed.

Lemma initial_state_within_capacity : within_capacity initial_state.
Proof. intros user m. discriminate. Qed.

(** ** Matching *)

(** The selection holds every user once: [selectedUsers.size] counts
    distinct users. *)
Lemma toggleUser_distinct id st :
  NoDup (selectedUsers st) -> NoDup (selectedUsers (toggleUser id st)).
Proof.
  intros ND. unfold toggleUser.
  destruct (JSSet.has id (selectedUsers st)); cbn.
  - apply NoDup_filter. assumption.
  - apply JSSet_add_NoDup. assumption.
Qed.

(** C4.  With fewer than two selected users, [callMagic] shows the error
    "Please select at least 2 users to generate matches" in the list alert
    box and returns: it sends no request, whatever the server would answer,
    and neither the stored match result nor the result page changes. *)
Theorem callMagic_needs_two_users :
  forall (st : state),
    (JSSet.size (selectedUsers st) < 2)%Z ->
    let failed :=
      showAlert listAlert
        (str "Please select at least 2 users to generate matches")
        AlertError st in
    callMagic st = (failed, None)
    /\ (forall fetch, callMagic_with fetch st = failed)
    /\ alerts failed listAlert
       = Some {| alert_message :=
                   str "Please select at least 2 users to generate matches";
                 alert_class := AlertError |}
    /\ matching failed = matching st
    /\ matchingResults failed = matchingResults st
    /\ currentScreen failed = currentScreen st.
Proof.
  intros st S failed.
  assert (E : callMagic st = (failed, None)).
  { unfold callMagic.
    destruct (Z.ltb_spec (JSSet.size (selectedUsers st)) 2); [reflexivity|lia]. }
  repeat split; try assumption.
  intros fetch. unfold callMagic_with. rewrite E. reflexivity.
Qed.

(** An instance of C4: one selected user. *)
Lemma callMagic_needs_two_users_witness :
  snd (callMagic (toggleUser 1 initial_state)) = None
  /\ alerts (fst (callMagic (toggleUser 1 initial_state))) listAlert
     = Some {| alert_message :=
                 str "Please select at least 2 users to generate matches";
               alert_class := AlertError |}.
Proof.
  destruct (callMagic_needs_two_users (toggleUser 1 initial_state))
    as (E & _ & A & _).
  - cbn. lia.
  - rewrite E. split; [reflexivity | exact A].
Defined.

Lemma callMagic_sends st :
  (2 <= JSSet.size (selectedUsers st))%Z ->
  callMagic st
  = (showAlert listAlert (str "Generating matches...") AlertSuccess st,
     Some {| url := API_URL ++ str "/matching";
             user_ratings :=
               map (fun userId =>
                      {| user_id := userId;
                         ratings :=
                           match JSMap.get userId (dayofRatingsByUser st) with
                           | Some dayofRatings =>
                               map (fun kv => override_of (snd kv))
                                 (JSMap.entries dayofRatings)
                           | None => []
                           end |})
                 (JSSet.elements (selectedUsers st)) |}).
Proof.
  intros S. unfold callMagic.
  destruct (Z.ltb_spec (JSSet.size (selectedUsers st)) 2); [lia|reflexivity].
Qed.

(** C7.  A request that the server answers with an empty list is a result,
    not a failure: the page switches to the matching screen and the result
    container shows the state "No matching restaurants found".  A failed
    request (the fetch or the decoding of the answer throws, or the status is
    not ok) only shows an error in the list alert box: the result container,
    the stored result and the screen are not written. *)
Theorem empty_result_is_not_an_error :
  forall (fetch : request -> response) (st : state),
    (2 <= JSSet.size (selectedUsers st))%Z ->
    exists req,
      snd (callMagic st) = Some req
      /\ (fetch req = Ok (Some []) ->
          let st' := callMagic_with fetch st in
          matchingResults st'
          = EmptyState (str "No matching restaurants found")
          /\ currentScreen st' = ScreenMatching
          /\ matching st' = Some []
          /\ alerts st' listAlert
             = Some {| alert_message := str "Generating matches...";
                       alert_class := AlertSuccess |})
      /\ (forall thrown,
             fetch req = Rejected thrown \/ fetch req = NotOk thrown ->
             let st' := callMagic_with fetch st in
             matchingResults st' = matchingResults st
             /\ currentScreen st' = currentScreen st
             /\ matching st' = matching st
             /\ exists message,
                 message <> []
                 /\ alerts st' listAlert
                    = Some {| alert_message := message;
                              alert_class := AlertError |}).
Proof.
  intros fetch st S. eexists. rewrite (callMagic_sends st S). cbn [snd].
  split; [reflexivity|]. unfold callMagic_with. rewrite (callMagic_sends st S).
  split.
  - intros ->. cbn. auto.
  - intros thrown [-> | ->]; cbn; repeat split;
      eexists; (split; [|reflexivity]); destruct thrown; discriminate.
Qed.

(** An instance of C7: a server that finds nothing, and a server that
    answers 500 with the error "boom". *)
Lemma empty_result_is_not_an_error_witness :
  matchingResults (callMagic_with (fun _ => Ok (Some [])) two_users_selected)
  = EmptyState (str "No matching restaurants found")
  /\ matchingResults
       (callMagic_with (fun _ => NotOk (str "boom")) two_users_selected)
     = Cards []
  /\ alerts (callMagic_with (fun _ => NotOk (str "boom")) two_users_selected)
       listAlert
     = Some {| alert_message := str "boom"; alert_class := AlertError |}.
Proof.
  split; [|split].
  - destruct (empty_result_is_not_an_error
                (fun _ => Ok (Some [])) two_users_selected)
      as (req & _ & E & _); [cbn; lia|].
    apply E. reflexivity.
  - destruct (empty_result_is_not_an_error
                (fun _ => NotOk (str "boom")) two_users_selected)
      as (req & _ & _ & F); [cbn; lia|].
    apply (F (str "boom")). right. reflexivity.
  - reflexivity.
Defined.

(** C5.  With two or more selected users, the request carries one entry per
    selected user, in the order of selection, and the entry's [ratings] are
    that user's day-of ratings: a restaurant rating as [restaurant_id] and
    [rating], a cuisine rating as [cuisine] and [rating], in the order they
    were chosen, and the empty list for a user without a day-of map.  On the
    server, as the spec describes its resolver, a supplied list, the empty one
    too, is the effective preference set whatever the base preferences are;
    only without a supplied list are the base preferences used. *)
Theorem dayof_ratings_override_base :
  forall (st : state),
    (2 <= JSSet.size (selectedUsers st))%Z ->
    exists req,
      snd (callMagic st) = Some req
      /\ map user_id (user_ratings req) = JSSet.elements (selectedUsers st)
      /\ (forall u, In u (user_ratings req) ->
            ratings u
            = match JSMap.get (user_id u) (dayofRatingsByUser st) with
              | Some dayofRatings =>
                  map (fun kv =>
                         match snd kv with
                         | DayofRestaurant id rating =>
                             RestaurantRating id rating
                         | DayofCuisine cuisine rating =>
                             CuisineRating cuisine rating
                         end)
                    (JSMap.entries dayofRatings)
              | None => []
              end
            /\ forall base,
                Backend.effectivePreferences (Backend.supplied_override u) base
                = ratings u)
      /\ (forall base, Backend.effectivePreferences None base = base).
Proof.
  intros st S. eexists. rewrite (callMagic_sends st S).
  split; [reflexivity|]. split; [|split].
  - cbn [user_ratings]. rewrite map_map. cbn. apply map_id.
  - cbn [user_ratings]. intros u I. apply in_map_iff in I.
    destruct I as (userId & <- & _).
    cbn. split; [|reflexivity].
    destruct (JSMap.get userId (dayofRatingsByUser st)); reflexivity.
  - reflexivity.
Qed.

(** An instance of C5: user 1 with three day-of ratings, user 2 with none. *)
Lemma dayof_ratings_override_base_witness :
  exists req,
    snd (callMagic two_users_selected) = Some req
    /\ user_ratings req
       = [ {| user_id := 1;
              ratings := [CuisineRating (str "Thai") 5.0;
                          CuisineRating (str "Vegan") 5.0;
                          RestaurantRating 4 5.0] |};
           {| user_id := 2; ratings := [] |} ].
Proof.
  destruct (dayof_ratings_override_base two_users_selected) as (req & E & _);
    [cbn; lia|].
  exists req. split; [exact E|].
  cbn in E. injection E as <-. reflexivity.
Defined.

(** Seen from the server of the spec, the client never leaves a user without
    a supplied list: a selected user without day-of ratings is sent the empty
    list, which the resolver of the spec takes as that user's whole preference
    set.  (The source comments this case with "backend will use base
    preferences".) *)
Lemma user_without_dayof_ratings_sends_empty_list :
  forall (st : state) (req : request) (u : user_rating)
         (base : list override_rating),
    snd (callMagic st) = Some req ->
    In u (user_ratings req) ->
    JSMap.get (user_id u) (dayofRatingsByUser st) = None ->
    ratings u = []
    /\ Backend.effectivePreferences (Backend.supplied_override u) base = [].
Proof.
  intros st req u base E I G.
  destruct (Z.ltb_spec (JSSet.size (selectedUsers st)) 2) as [S|S].
  - unfold callMagic in E.
    destruct (Z.ltb_spec (JSSet.size (selectedUsers st)) 2); [|lia].
    discriminate.
  - rewrite (callMagic_sends st S) in E. cbn in E. injection E as <-.
    cbn [user_ratings] in I. apply in_map_iff in I.
    destruct I as (userId & <- & _). cbn in G |- *. rewrite G. auto.
Qed.

(** ** Cuisines *)

Lemma add_tags_In cuisines : forall cuisineSet t,
  In t (add_tags cuisineSet cuisines)
  <-> In t cuisineSet \/ (In t cuisines /\ t <> []).
Proof.
  induction cuisines as [|c cuisines IH]; intros cuisineSet t.
  - simpl. intuition.
  - unfold add_tags in *. simpl. rewrite IH. destruct c as [|x c].
    + intuition congruence.
    + rewrite JSSet_add_In. intuition; subst; auto.
      right. split; [auto | discriminate].
Qed.

Lemma add_tags_NoDup cuisines : forall cuisineSet,
  NoDup cuisineSet -> NoDup (add_tags cuisineSet cuisines).
Proof.
  induction cuisines as [|c cuisines IH]; intros cuisineSet ND.
  - assumption.
  - unfold add_tags in *. simpl. apply IH. destruct c; [assumption|].
    apply JSSet_add_NoDup. assumption.
Qed.

Lemma collect_In restaurants : forall cuisineSet t,
  In t (collect cuisineSet restaurants)
  <-> In t cuisineSet
      \/ (t <> []
          /\ exists r piece,
              In r restaurants
              /\ In piece (split comma (Restaurant.cuisine r))
              /\ t = trim piece).
Proof.
  induction restaurants as [|r restaurants IH]; intros cuisineSet t.
  - simpl. split; [auto|]. intros [I | (_ & r & p & [] & _)]. assumption.
  - unfold collect in *. simpl. rewrite IH, add_tags_In, in_map_iff. split.
    + intros [[I | ((p & <- & I) & N)] | (N & r' & p & I & P & E)]; auto.
      * right. split; [assumption|]. exists r, p. auto.
      * right. split; [assumption|]. exists r', p. auto.
    + intros [I | (N & r' & p & [<- | I] & P & E)]; auto.
      * left. right. split; [|assumption]. exists p. auto.
      * right. split; [assumption|]. exists r', p. auto.
Qed.

Lemma collect_NoDup restaurants : forall cuisineSet,
  NoDup cuisineSet -> NoDup (collect cuisineSet restaurants).
Proof.
  induction restaurants as [|r restaurants IH]; intros cuisineSet ND.
  - assumption.
  - unfold collect in *. simpl. apply IH, add_tags_NoDup. assumption.
Qed.

Lemma extractCuisines_unfold st :
  allCuisines (extractCuisines st)
  = JSStringSort.sort (collect JSSet.empty (allRestaurants st)).
Proof. reflexivity. Qed.

Lemma cuisine_tags_In restaurants t :
  In t (cuisine_tags restaurants)
  <-> t <> []
      /\ exists r piece,
          In r restaurants
          /\ In piece (split comma (Restaurant.cuisine r))
          /\ t = trim piece.
Proof.
  unfold cuisine_tags. rewrite filter_In, in_flat_map. split.
  - intros ((r & I & M) & N). apply in_map_iff in M.
    destruct M as (p & <- & P). split.
    + destruct (jsstring_eqb_spec (trim p) []); [discriminate | assumption].
    + exists r, p. auto.
  - intros (N & r & p & I & P & ->). split.
    + exists r. split; [assumption|]. apply in_map. assumption.
    + destruct (jsstring_eqb_spec (trim p) []); [contradiction | reflexivity].
Qed.

(** C6.  [extractCuisines] leaves in [allCuisines] exactly the tags of the
    catalog: a string is listed if and only if it is the trimmed form of a
    comma-separated piece of some restaurant's cuisine string and is not
    empty; no tag is listed twice; the list has the same members as the
    set the spec describes, [listCuisines], and as many; it is in the order
    of the code units, and strings are compared as stored, so that tags which
    differ in case are different tags.  Nothing else of the state changes. *)
Theorem extractCuisines_is_listCuisines :
  forall (st : state),
    let st' := extractCuisines st in
    (forall tag,
        In tag (allCuisines st')
        <-> tag <> []
            /\ exists r piece,
                In r (allRestaurants st)
                /\ In piece (split comma (Restaurant.cuisine r))
                /\ tag = trim piece)
    /\ NoDup (allCuisines st')
    /\ Permutation (allCuisines st') (listCuisines (allRestaurants st))
    /\ Sorted (fun a b => jsstring_leb a b = true) (allCuisines st')
    /\ st' = set_allCuisines (allCuisines st') st.
Proof.
  intros st st'. subst st'. rewrite extractCuisines_unfold.
  set (found := collect JSSet.empty (allRestaurants st)).
  assert (P : Permutation found (JSStringSort.sort found))
    by apply JSStringSort.Permuted_sort.
  assert (ND : NoDup found) by (apply collect_NoDup; constructor).
  assert (M : forall tag,
             In tag (JSStringSort.sort found)
             <-> tag <> []
                 /\ exists r piece,
                     In r (allRestaurants st)
                     /\ In piece (split comma (Restaurant.cuisine r))
                     /\ tag = trim piece).
  { intros tag. split.
    - intros I. apply (Permutation_in _ (Permutation_sym P)) in I.
      apply collect_In in I. destruct I as [[] | I]. assumption.
    - intros I. apply (Permutation_in _ P). apply collect_In. auto. }
  split; [exact M|]. split; [|split; [|split]].
  - apply (Permutation_NoDup P ND).
  - apply NoDup_Permutation.
    + apply (Permutation_NoDup P ND).
    + apply NoDup_nodup.
    + intros tag. unfold listCuisines.
      rewrite M, nodup_In, cuisine_tags_In. reflexivity.
  - apply JSStringSort.Sorted_sort.
  - reflexivity.
Qed.

(** An instance of C6 on [catalog]. *)
Lemma extractCuisines_is_listCuisines_witness :
  allCuisines (extractCuisines (with_catalog initial_state))
  = [str "Sushi"; str "Thai"; str "Vegan"; str "thai"]
  /\ NoDup (allCuisines (extractCuisines (with_catalog initial_state))).
Proof.
  split.
  - vm_compute. reflexivity.
  - apply (extractCuisines_is_listCuisines (with_catalog initial_state)).
Defined.

(** ** Group score *)

Lemma product_snoc scores s :
  Backend.product (scores ++ [s])
  = match scores with [] => s | _ :: _ => Backend.product scores * s end.
Proof.
  destruct scores as [|s0 scores]; [reflexivity|].
  cbn. rewrite fold_left_app. reflexivity.
Qed.

Lemma groupScore_snoc effective s :
  Backend.groupScore (effective ++ [Some s])
  = Some match Backend.groupScore effective with
         | Some g => g * s
         | None => s
         end.
Proof.
  unfold Backend.groupScore, Backend.contributions.
  rewrite flat_map_app. cbn [flat_map app].
  set (scores := flat_map _ effective).
  pose proof (product_snoc scores s) as E.
  destruct scores as [|s0 scores]; [reflexivity|].
  cbn [app] in *. rewrite E. reflexivity.
Qed.

Lemma groupScore_absent effective :
  Backend.groupScore (effective ++ [None]) = Backend.groupScore effective.
Proof.
  unfold Backend.groupScore, Backend.contributions.
  rewrite flat_map_app. cbn [flat_map app]. rewrite app_nil_r. reflexivity.
Qed.

(** C8.  The group score of the spec's aggregator is the product of the
    effective scores of the contributing users: no score without a
    contributor, a user without an effective score changes nothing, and each
    further contributor multiplies the score by its own (so that a single
    contributor's score is the group score).  Scores 9, 9, 9, 9, 1 give 6561
    and five scores of 6 give 7776, and the spec's ranking puts the second
    restaurant before the first, whatever their ids; their sums or means
    would order them the other way round. *)
Theorem group_score_is_product :
  Backend.groupScore [] = None
  /\ (forall effective,
        Backend.groupScore (effective ++ [None]) = Backend.groupScore effective)
  /\ (forall effective s,
        Backend.groupScore (effective ++ [Some s])
        = Some match Backend.groupScore effective with
               | Some g => g * s
               | None => s
               end)
  /\ Backend.groupScore [Some 9; Some 9; Some 9; Some 9; Some 1] = Some 6561
  /\ Backend.groupScore [Some 6; Some 6; Some 6; Some 6; Some 6] = Some 7776
  /\ (forall mostly_liked all_six : Z,
        Backend.rank [(mostly_liked, 6561); (all_six, 7776)]
        = [(all_six, 7776); (mostly_liked, 6561)]
        /\ Backend.rank [(all_six, 7776); (mostly_liked, 6561)]
           = [(all_six, 7776); (mostly_liked, 6561)])
  /\ (Backend.sum [6; 6; 6; 6; 6] <? Backend.sum [9; 9; 9; 9; 1]) = true
  /\ (Backend.average [6; 6; 6; 6; 6] <? Backend.average [9; 9; 9; 9; 1])
     = true.
Proof.
  split; [reflexivity|].
  split; [exact groupScore_absent|].
  split; [exact groupScore_snoc|].
  split; [reflexivity|].
  split; [reflexivity|].
  split; [|split; reflexivity].
  intros mostly_liked all_six. split; reflexivity.
Qed.

(** ** Numbers *)

(** The comparisons of binary64, through their specification on
    [spec_float]. *)

Lemma Prim2SF_nan x : Prim2SF x = S754_nan <-> is_nan x = true.
Proof.
  unfold Prim2SF. destruct (is_nan x); [tauto|].
  destruct (is_zero x); [split; discriminate|].
  destruct (is_infinity x); [split; discriminate|].
  destruct (Z.frexp x) as [r e].
  destruct (shr_fexp _ _ _ _ _) as [s e'].
  destruct (shr_m s); split; discriminate.
Qed.

Lemma not_nan x : is_nan x = false -> Prim2SF x <> S754_nan.
Proof. intros E N. apply Prim2SF_nan in N. congruence. Qed.

Lemma Prim2SF_inj x y : Prim2SF x = Prim2SF y -> x = y.
Proof.
  intros E. rewrite <- (SF2Prim_Prim2SF x), <- (SF2Prim_Prim2SF y), E.
  reflexivity.
Qed.

Ltac order_cases :=
  repeat match goal with
         | |- context [Z.compare ?a ?b] =>
             destruct (Z.compare_spec a b); try subst; cbn
         | H : context [Z.compare ?a ?b] |- _ =>
             destruct (Z.compare_spec a b); try subst; cbn in H
         | |- context [Pos.compare_cont Eq ?a ?b] =>
             change (Pos.compare_cont Eq a b) with (Pos.compare a b);
             destruct (Pos.compare_spec a b); try subst; cbn
         | H : context [Pos.compare_cont Eq ?a ?b] |- _ =>
             change (Pos.compare_cont Eq a b) with (Pos.compare a b) in H;
             destruct (Pos.compare_spec a b); try subst; cbn in H
         end;
  try congruence; try lia.

Lemma SFleb_trans x y z :
  SFleb x y = true -> SFleb y z = true -> SFleb x z = true.
Proof.
  unfold SFleb, SFcompare.
  destruct x as [[|]|[|]| |[|] mx ex], y as [[|]|[|]| |[|] my ey],
    z as [[|]|[|]| |[|] mz ez]; cbn; try congruence; intros A B; order_cases.
Qed.

Lemma SFltb_false x y :
  x <> S754_nan -> y <> S754_nan -> SFltb x y = false -> SFleb y x = true.
Proof.
  unfold SFltb, SFleb, SFcompare.
  destruct x as [[|]|[|]| |[|] mx ex], y as [[|]|[|]| |[|] my ey];
    cbn; try congruence; intros _ _ A; order_cases.
Qed.

Lemma SFltb_true x y : SFltb x y = true -> SFleb x y = true.
Proof.
  unfold SFltb, SFleb. destruct (SFcompare x y) as [[| |]|]; congruence.
Qed.


Lemma SFleb_refl x : x <> S754_nan -> SFleb x x = true.
Proof.
  unfold SFleb, SFcompare. destruct x as [[|]|[|]| |[|] mx ex]; cbn;
    try congruence; intros _; order_cases.
Qed.

Lemma leb_refl x : is_nan x = false -> (x <=? x) = true.
Proof. intros N. rewrite leb_spec. apply SFleb_refl, not_nan, N. Qed.

Lemma leb_trans x y z :
  (x <=? y) = true -> (y <=? z) = true -> (x <=? z) = true.
Proof. rewrite !leb_spec. apply SFleb_trans. Qed.

Lemma ltb_leb x y : (x <? y) = true -> (x <=? y) = true.
Proof. rewrite ltb_spec, leb_spec. apply SFltb_true. Qed.

Lemma ltb_false_leb x y :
  is_nan x = false -> is_nan y = false ->
  (x <? y) = false -> (y <=? x) = true.
Proof.
  intros Nx Ny. rewrite ltb_spec, leb_spec.
  apply SFltb_false; apply not_nan; assumption.
Qed.

Lemma is_zero_SF x : is_zero x = true <-> exists s, Prim2SF x = S754_zero s.
Proof.
  unfold is_zero. rewrite eqb_spec.
  change (Prim2SF zero) with (S754_zero false).
  unfold SFeqb, SFcompare. split.
  - destruct (Prim2SF x) as [s|[|]| |[|] m e]; try discriminate. eauto.
  - intros [s ->]. reflexivity.
Qed.

Lemma is_zero_cases x : is_zero x = true -> x = zero \/ x = neg_zero.
Proof.
  intros Z. apply is_zero_SF in Z. destruct Z as [[|] E].
  - right. apply Prim2SF_inj. rewrite E. reflexivity.
  - left. apply Prim2SF_inj. rewrite E. reflexivity.
Qed.


Lemma zeros_leb x y :
  is_neg_zero x = true -> is_pos_zero y = true -> (x <=? y) = true.
Proof.
  unfold is_neg_zero, is_pos_zero. rewrite !classify_spec, leb_spec.
  unfold SF64classify, SFclassify.
  destruct (Prim2SF x) as [[|]|[|]| |[|] mx ex]; try discriminate;
    try (destruct (Z.eqb _ _); discriminate).
  destruct (Prim2SF y) as [[|]|[|]| |[|] my ey]; try discriminate;
    try (destruct (Z.eqb _ _); discriminate).
  reflexivity.
Qed.

Lemma pos_zero_not_nan x : is_pos_zero x = true -> is_nan x = false.
Proof.
  unfold is_pos_zero. rewrite classify_spec.
  destruct (is_nan x) eqn:N; [|reflexivity].
  apply Prim2SF_nan in N. rewrite N. discriminate.
Qed.

(** [Math.max] *)

Lemma Math_max_from_NaN numbers : forall highest,
  existsb is_nan numbers = true -> Math_max_from highest numbers = nan.
Proof.
  induction numbers as [|number rest IH]; intros highest E; [discriminate|].
  cbn in E |- *. destruct (is_nan number); [reflexivity|].
  cbn in E. rewrite !IH by assumption.
  destruct (_ && _); [reflexivity|]. destruct (_ <? _); reflexivity.
Qed.

Lemma Math_max_from_spec numbers : forall highest,
  is_nan highest = false ->
  no_NaN numbers = true ->
  let r := Math_max_from highest numbers in
  (r = highest \/ In r numbers)
  /\ (highest <=? r) = true
  /\ (forall x, In x numbers -> (x <=? r) = true).
Proof.
  induction numbers as [|number rest IH]; intros highest Nh Nn; cbn zeta.
  - cbn. split; [auto|]. split; [apply leb_refl; assumption | intros _ []].
  - cbn in Nn. apply andb_true_iff in Nn. destruct Nn as [Nx Nr].
    apply negb_true_iff in Nx. cbn [Math_max_from]. rewrite Nx.
    assert (Step : forall highest',
               (highest' = highest \/ highest' = number) ->
               (highest <=? highest') = true ->
               (number <=? highest') = true ->
               let r := Math_max_from highest' rest in
               (r = highest \/ In r (number :: rest))
               /\ (highest <=? r) = true
               /\ (forall x, In x (number :: rest) -> (x <=? r) = true)).
    { intros highest' Which Lh Ln.
      assert (Nh' : is_nan highest' = false)
        by (destruct Which; subst; assumption).
      destruct (IH highest' Nh' Nr) as (A & B & C). cbn zeta.
      split; [|split].
      - destruct A as [-> | A]; [|right; right; assumption].
        destruct Which as [-> | ->]; [left | right; left]; reflexivity.
      - apply leb_trans with highest'; assumption.
      - intros x [<- | I]; [|apply C; assumption].
        apply leb_trans with highest'; assumption. }
    destruct (is_pos_zero number && is_neg_zero highest) eqn:Z.
    + apply andb_true_iff in Z. destruct Z as [Zp Zn].
      apply Step; [auto | apply zeros_leb; assumption | apply leb_refl, Nx].
    + destruct (highest <? number) eqn:L.
      * apply Step; [auto | apply ltb_leb, L | apply leb_refl, Nx].
      * apply Step; [auto | apply leb_refl, Nh |].
        apply ltb_false_leb; assumption.
Qed.

Lemma leb_neg_infinity x : (x <=? neg_infinity) = true -> x = neg_infinity.
Proof.
  intros L. apply Prim2SF_inj.
  rewrite leb_spec in L. change (Prim2SF neg_infinity) with (S754_infinity true) in *.
  unfold SFleb, SFcompare in L.
  destruct (Prim2SF x) as [[|]|[|]| |[|] m e]; try discriminate. reflexivity.
Qed.

(** [Math.max] of a non-empty list without NaN is one of its numbers, and no
    number of the list is above it. *)
Lemma Math_max_spec number rest :
  no_NaN (number :: rest) = true ->
  In (Math_max (number :: rest)) (number :: rest)
  /\ (forall x, In x (number :: rest) ->
        (x <=? Math_max (number :: rest)) = true).
Proof.
  intros N.
  destruct (Math_max_from_spec (number :: rest) neg_infinity eq_refl N)
    as (A & _ & C).
  fold (Math_max (number :: rest)) in A, C. split; [|exact C].
  destruct A as [E | I]; [|assumption].
  left. rewrite E. apply leb_neg_infinity.
  rewrite <- E. apply C. left. reflexivity.
Qed.


(** Scores for which the quotient is exact *)



(** Not so for every score: the product of the ratings 3 and 1.2. *)
Lemma three_times_one_point_two_score :
  3 * 1.2 = 3.5999999999999996
  /\ 10 * 3.5999999999999996 / 3.5999999999999996 = 10.000000000000002.
Proof. split; reflexivity. Qed.

(** ** The result page *)

Lemma renderMatchingList_cards st first others :
  matching st = Some (first :: others) ->
  renderMatchingList st
  = set_matchingResults
      (Cards (mapi (match_card (Math_max (map match_score (first :: others))))
                (first :: others)))
      st.
Proof. intros E. unfold renderMatchingList. rewrite E. reflexivity. Qed.

Lemma match_card_rating currMax match_ index :
  card_rating (match_card currMax match_ index)
  = 10 * match_score match_ / currMax.
Proof. unfold match_card. destruct (score_style _). reflexivity. Qed.




Lemma no_matches_iff st :
  matchingResults (renderMatchingList st)
  = EmptyState (str "No matching restaurants found")
  <-> matching st = None \/ matching st = Some [].
Proof.
  unfold renderMatchingList.
  destruct (matching st) as [[|first others]|]; cbn; split; auto;
    try discriminate.
  intros [E | E]; discriminate.
Qed.




Lemma zero_not_nan x : is_zero x = true -> is_nan x = false.
Proof. intros Z. destruct (is_zero_cases Z) as [-> | ->]; reflexivity. Qed.

Lemma zero_over_zero x y :
  is_zero x = true -> is_zero y = true -> 10 * x / y = nan.
Proof.
  intros Zx Zy.
  destruct (is_zero_cases Zx) as [-> | ->],
    (is_zero_cases Zy) as [-> | ->]; reflexivity.
Qed.

Lemma mapi_from_length {A B : Type} (f : A -> Z -> B) l : forall index,
  length (mapi_from f index l) = length l.
Proof.
  induction l as [|x l IH]; intros index; cbn; [|rewrite IH]; reflexivity.
Qed.

(** C3, as the code has it.  Only a missing or an empty result is shown as
    "No matching restaurants found".  A non-empty result is shown as cards,
    one per entry, also when every raw score is zero: no guard stands before
    the division, and the number on every card is then NaN, the quotient of
    zero by zero. *)
Theorem only_an_empty_result_is_no_matches :
  forall (st : state),
    (matchingResults (renderMatchingList st)
     = EmptyState (str "No matching restaurants found")
     <-> matching st = None \/ matching st = Some [])
    /\ (forall first others,
           matching st = Some (first :: others) ->
           exists cards,
             matchingResults (renderMatchingList st) = Cards cards
             /\ length cards = length (first :: others)
             /\ (forallb (fun e => is_zero (match_score e)) (first :: others)
                 = true ->
                 Forall (fun c => card_rating c = nan) cards)).
Proof.
  intros st. split; [apply no_matches_iff|].
  intros first others E. rewrite (renderMatchingList_cards st E).
  eexists. split; [reflexivity|]. split; [apply mapi_from_length|].
  intros Z. set (entries := first :: others) in *.
  assert (Zs : forall s, In s (map match_score entries) -> is_zero s = true).
  { intros s I. apply in_map_iff in I. destruct I as (e & <- & I).
    rewrite forallb_forall in Z. apply Z. assumption. }
  assert (N : no_NaN (map match_score entries) = true).
  { apply forallb_forall. intros s I. rewrite zero_not_nan; auto. }
  assert (M : is_zero (Math_max (map match_score entries)) = true).
  { apply Zs.
    apply (Math_max_spec (match_score first) (map match_score others) N). }
  revert M. generalize (Math_max (map match_score entries)).
  intros currMax M. unfold mapi. generalize 0%Z.
  clearbody entries. clear E N Z.
  induction entries as [|e entries IH]; intros index; constructor.
  - rewrite match_card_rating. apply zero_over_zero; [|assumption].
    apply Zs. left. reflexivity.
  - apply IH. intros s I. apply Zs. right. assumption.
Qed.

(** An instance of C3 as the code has it: two restaurants with the scores
    0 and -0. *)
Lemma only_an_empty_result_is_no_matches_witness :
  exists cards,
    matchingResults (renderMatchingList (with_matching [rated 0; rated (-0)]))
    = Cards cards
    /\ length cards = 2%nat
    /\ Forall (fun c => card_rating c = nan) cards.
Proof.
  destruct (proj2 (only_an_empty_result_is_no_matches
                     (with_matching [rated 0; rated (-0)]))
              (rated 0) [rated (-0)] eq_refl)
    as (cards & E & L & Z).
  exists cards. split; [exact E|]. split; [exact L|].
  apply Z. reflexivity.
Defined.

(** C3 as stated fails: a result whose only score is zero is not shown as
    "no matches" but as a card with the number NaN, in the style of a high
    score. *)
Lemma zero_scores_are_rendered_as_cards :
  matchingResults (renderMatchingList (with_matching [rated 0]))
  = Cards [ {| card_rank := 1; card_restaurant := str "Sakura";
               card_rating := nan; card_scoreClass := str "score-high";
               card_scoreColor := str "#28a745" |} ]
  /\ matchingResults (renderMatchingList (with_matching []))
     = EmptyState (str "No matching restaurants found").
Proof. split; reflexivity. Qed.

(** * More properties of the handlers *)

(** ** Keys of maps *)

Section JSMapKeys.
Context {K V : Type} `{EqKey K}.
Implicit Types (k : K) (v : V) (m : JSMap.t K V).

Lemma keys_replace k v m : map fst (JSMap.replace k v m) = map fst m.
Proof.
  induction m as [|[k0 v0] m IH]; simpl; auto.
  destruct (keqb k k0); simpl; [|rewrite IH]; reflexivity.
Qed.

Lemma get_None_keys k m : JSMap.get k m = None <-> ~ In k (map fst m).
Proof.
  induction m as [|[k0 v0] m IH]; simpl; [tauto|].
  destruct (keqb_spec k k0) as [->|N].
  - split; [discriminate|]. intros A. destruct A. left. reflexivity.
  - rewrite IH. split.
    + intros A [E | I]; [congruence | tauto].
    + tauto.
Qed.

Lemma get_In k v m : JSMap.get k m = Some v -> In (k, v) m.
Proof.
  induction m as [|[k0 v0] m IH]; simpl; [discriminate|].
  destruct (keqb_spec k k0) as [->|N]; [intros [= ->]; auto | auto].
Qed.

Lemma In_get k v m : NoDup (map fst m) -> In (k, v) m -> JSMap.get k m = Some v.
Proof.
  induction m as [|[k0 v0] m IH]; simpl; [tauto|].
  intros ND [[= -> ->] | I].
  - rewrite keqb_refl. reflexivity.
  - inversion ND as [|? ? NI ND']; subst.
    destruct (keqb_spec k k0) as [->|N]; [|auto].
    destruct NI. apply (in_map fst) in I. exact I.
Qed.

Lemma keys_set_present k v m :
  JSMap.has k m = true -> map fst (JSMap.set k v m) = map fst m.
Proof. intros E. unfold JSMap.set. rewrite E. apply keys_replace. Qed.

Lemma keys_set_absent k v m :
  JSMap.has k m = false -> map fst (JSMap.set k v m) = map fst m ++ [k].
Proof. intros E. unfold JSMap.set. rewrite E, map_app. reflexivity. Qed.

Lemma NoDup_keys_set k v m :
  NoDup (map fst m) -> NoDup (map fst (JSMap.set k v m)).
Proof.
  intros ND. destruct (JSMap.has k m) eqn:E.
  - rewrite keys_set_present; assumption.
  - rewrite keys_set_absent by assumption.
    apply NoDup_app; [assumption | repeat constructor; auto |].
    intros x I [<- | []]. apply has_false_get, get_None_keys in E. tauto.
Qed.

Lemma keys_delete k m :
  map fst (JSMap.delete k m) = filter (fun x => negb (keqb k x)) (map fst m).
Proof.
  induction m as [|[k0 v0] m IH]; simpl; auto.
  destruct (keqb k k0); simpl; rewrite IH; reflexivity.
Qed.

Lemma NoDup_keys_delete k m :
  NoDup (map fst m) -> NoDup (map fst (JSMap.delete k m)).
Proof. intros ND. rewrite keys_delete. apply NoDup_filter. assumption. Qed.

Lemma In_delete kv k m : In kv (JSMap.delete k m) -> In kv m.
Proof. unfold JSMap.delete. rewrite filter_In. tauto. Qed.

(** Storing under a new key and deleting the key again gives back the map,
    entry by entry. *)
Lemma delete_set_absent k v m :
  JSMap.has k m = false -> JSMap.delete k (JSMap.set k v m) = m.
Proof.
  intros E. unfold JSMap.set. rewrite E. unfold JSMap.delete.
  rewrite filter_app. simpl. rewrite keqb_refl. simpl. rewrite app_nil_r.
  apply has_false_get in E. apply (delete_absent k m E).
Qed.

Lemma has_delete_same k m : JSMap.has k (JSMap.delete k m) = false.
Proof. apply has_false_get, get_delete_same. Qed.

Lemma has_set_same k v m : JSMap.has k (JSMap.set k v m) = true.
Proof. apply has_get. rewrite get_set_same. discriminate. Qed.

Lemma has_ext k m m' :
  JSMap.get k m = JSMap.get k m' -> JSMap.has k m = JSMap.has k m'.
Proof. unfold JSMap.has. intros ->. reflexivity. Qed.

End JSMapKeys.

(** ** The form of the create screen *)

Lemma set_restaurantRatings_id st x :
  x = restaurantRatings st -> set_restaurantRatings x st = st.
Proof. intros ->. destruct st; reflexivity. Qed.

Lemma set_cuisineRatings_id st x :
  x = cuisineRatings st -> set_cuisineRatings x st = st.
Proof. intros ->. destruct st; reflexivity. Qed.

Lemma set_restaurantRatings_twice x y st :
  set_restaurantRatings x (set_restaurantRatings y st)
  = set_restaurantRatings x st.
Proof. reflexivity. Qed.

Lemma set_cuisineRatings_twice x y st :
  set_cuisineRatings x (set_cuisineRatings y st) = set_cuisineRatings x st.
Proof. reflexivity. Qed.

(** X1.  Toggling the same restaurant, or cuisine, twice: when it was not
    rated, the state is exactly what it was; when it was rated, it is rated
    again, but with 5.0 and not with the rating it had. *)
Theorem toggle_twice :
  forall (st : state),
    (forall id,
        JSMap.has id (restaurantRatings st) = false ->
        toggleRestaurant id (toggleRestaurant id st) = st)
    /\ (forall id,
          JSMap.has id (restaurantRatings st) = true ->
          JSMap.get id
            (restaurantRatings (toggleRestaurant id (toggleRestaurant id st)))
          = Some 5.0)
    /\ (forall cuisine,
          JSMap.has cuisine (cuisineRatings st) = false ->
          toggleCuisine cuisine (toggleCuisine cuisine st) = st)
    /\ (forall cuisine,
          JSMap.has cuisine (cuisineRatings st) = true ->
          JSMap.get cuisine
            (cuisineRatings (toggleCuisine cuisine (toggleCuisine cuisine st)))
          = Some 5.0).
Proof.
  intros st. repeat apply conj.
  - intros id A. unfold toggleRestaurant at 2. rewrite A.
    unfold toggleRestaurant. cbn [restaurantRatings set_restaurantRatings].
    rewrite has_set_same, set_restaurantRatings_twice.
    apply set_restaurantRatings_id, delete_set_absent, A.
  - intros id A. unfold toggleRestaurant at 2. rewrite A.
    unfold toggleRestaurant. cbn [restaurantRatings set_restaurantRatings].
    rewrite has_delete_same. cbn. apply get_set_same.
  - intros cuisine A. unfold toggleCuisine at 2. rewrite A.
    unfold toggleCuisine. cbn [cuisineRatings set_cuisineRatings].
    rewrite has_set_same, set_cuisineRatings_twice.
    apply set_cuisineRatings_id, delete_set_absent, A.
  - intros cuisine A. unfold toggleCuisine at 2. rewrite A.
    unfold toggleCuisine. cbn [cuisineRatings set_cuisineRatings].
    rewrite has_delete_same. cbn. apply get_set_same.
Qed.

(** An instance of X1: restaurant 3 is not rated, restaurant 7 is. *)
Lemma toggle_twice_witness :
  toggleRestaurant 3 (toggleRestaurant 3 rated_form) = rated_form
  /\ JSMap.get 7%Z
       (restaurantRatings (toggleRestaurant 7 (toggleRestaurant 7 rated_form)))
     = Some 5.0
  /\ JSMap.get 7%Z (restaurantRatings rated_form) = Some 8.5.
Proof.
  destruct (toggle_twice rated_form) as (A & B & _).
  split; [apply A; reflexivity|]. split; [apply B; reflexivity|reflexivity].
Defined.

(** X2.  Removing a restaurant, or a cuisine, leaves it without a rating and
    every other rating as it was; removing what is not rated changes nothing,
    and removing what a toggle has just added gives back the state before the
    toggle. *)
Theorem remove_is_exact :
  forall (st : state),
    (forall id,
        JSMap.get id (restaurantRatings (removeRestaurant id st)) = None
        /\ (forall id', id' <> id ->
              JSMap.get id' (restaurantRatings (removeRestaurant id st))
              = JSMap.get id' (restaurantRatings st))
        /\ (JSMap.has id (restaurantRatings st) = false ->
            removeRestaurant id st = st
            /\ removeRestaurant id (toggleRestaurant id st) = st))
    /\ (forall cuisine,
          JSMap.get cuisine (cuisineRatings (removeCuisine cuisine st)) = None
          /\ (forall cuisine', cuisine' <> cuisine ->
                JSMap.get cuisine' (cuisineRatings (removeCuisine cuisine st))
                = JSMap.get cuisine' (cuisineRatings st))
          /\ (JSMap.has cuisine (cuisineRatings st) = false ->
              removeCuisine cuisine st = st
              /\ removeCuisine cuisine (toggleCuisine cuisine st) = st)).
Proof.
  intros st. split.
  - intros id. unfold removeRestaurant.
    cbn [restaurantRatings set_restaurantRatings]. split; [apply get_delete_same|].
    split; [intros id' N; apply get_delete_other; congruence|].
    intros A. split.
    + apply set_restaurantRatings_id, delete_absent, has_false_get, A.
    + unfold toggleRestaurant. rewrite A.
      cbn [restaurantRatings set_restaurantRatings].
      rewrite set_restaurantRatings_twice.
      apply set_restaurantRatings_id, delete_set_absent, A.
  - intros cuisine. unfold removeCuisine.
    cbn [cuisineRatings set_cuisineRatings]. split; [apply get_delete_same|].
    split; [intros c' N; apply get_delete_other; congruence|].
    intros A. split.
    + apply set_cuisineRatings_id, delete_absent, has_false_get, A.
    + unfold toggleCuisine. rewrite A.
      cbn [cuisineRatings set_cuisineRatings].
      rewrite set_cuisineRatings_twice.
      apply set_cuisineRatings_id, delete_set_absent, A.
Qed.

(** An instance of X2 on [rated_form]. *)
Lemma remove_is_exact_witness :
  removeRestaurant 3 rated_form = rated_form
  /\ removeRestaurant 3 (toggleRestaurant 3 rated_form) = rated_form
  /\ JSMap.get 7%Z (restaurantRatings (removeRestaurant 7 rated_form)) = None.
Proof.
  destruct (proj1 (remove_is_exact rated_form) 3%Z) as (_ & _ & A).
  destruct (A eq_refl) as [B C].
  split; [exact B|]. split; [exact C|].
  apply (proj1 (remove_is_exact rated_form) 7%Z).
Defined.

(** X3.  Moving a slider of the form stores [parseFloat] of its value as the
    rating of that restaurant, or cuisine, and nothing else: every other
    rating and the other map stay, a rated item keeps its place among the
    keys, and an item that was not rated is added after the others. *)
Theorem slider_sets_one_rating :
  forall (parseFloat : jsstring -> float) (st : state) (value : jsstring),
    (forall id,
        let st' := updateRating parseFloat id value st in
        JSMap.get id (restaurantRatings st') = Some (parseFloat value)
        /\ (forall id', id' <> id ->
              JSMap.get id' (restaurantRatings st')
              = JSMap.get id' (restaurantRatings st))
        /\ cuisineRatings st' = cuisineRatings st
        /\ map fst (restaurantRatings st')
           = (if JSMap.has id (restaurantRatings st)
              then map fst (restaurantRatings st)
              else map fst (restaurantRatings st) ++ [id]))
    /\ (forall cuisine,
          let st' := updateCuisineRating parseFloat cuisine value st in
          JSMap.get cuisine (cuisineRatings st') = Some (parseFloat value)
          /\ (forall cuisine', cuisine' <> cuisine ->
                JSMap.get cuisine' (cuisineRatings st')
                = JSMap.get cuisine' (cuisineRatings st))
          /\ restaurantRatings st' = restaurantRatings st
          /\ map fst (cuisineRatings st')
             = (if JSMap.has cuisine (cuisineRatings st)
                then map fst (cuisineRatings st)
                else map fst (cuisineRatings st) ++ [cuisine])).
Proof.
  intros parseFloat st value. split.
  - intros id st'. subst st'. unfold updateRating. cbn.
    split; [apply get_set_same|].
    split; [intros id' N; apply get_set_other; congruence|].
    split; [reflexivity|].
    destruct (JSMap.has id (restaurantRatings st)) eqn:A.
    + apply keys_set_present, A.
    + apply keys_set_absent, A.
  - intros cuisine st'. subst st'. unfold updateCuisineRating. cbn.
    split; [apply get_set_same|].
    split; [intros c' N; apply get_set_other; congruence|].
    split; [reflexivity|].
    destruct (JSMap.has cuisine (cuisineRatings st)) eqn:A.
    + apply keys_set_present, A.
    + apply keys_set_absent, A.
Qed.

(** An instance of X3: the slider of restaurant 7 moved to a value that
    parses to 6.5. *)
Lemma slider_sets_one_rating_witness :
  restaurantRatings (updateRating (fun _ => 6.5) 7 (str "6.5") rated_form)
  = [(7%Z, 6.5)]
  /\ JSMap.get 7%Z
       (restaurantRatings (updateRating (fun _ => 6.5) 7 (str "6.5") rated_form))
     = Some 6.5.
Proof.
  split; [reflexivity|].
  apply (proj1 (slider_sets_one_rating (fun _ => 6.5) rated_form (str "6.5"))
           7%Z).
Defined.

(** ** The selection of users *)

Lemma selectAll_In allUsers : forall (selected : JSSet.t Z) u,
  In u (fold_left (fun selected id => JSSet.add id selected) allUsers selected)
  <-> In u selected \/ In u allUsers.
Proof.
  induction allUsers as [|id allUsers IH]; intros selected u; simpl.
  - tauto.
  - rewrite IH, JSSet_add_In. intuition (subst; auto).
Qed.

Lemma selectAll_NoDup allUsers : forall (selected : JSSet.t Z),
  NoDup selected ->
  NoDup (fold_left (fun selected id => JSSet.add id selected) allUsers selected).
Proof.
  induction allUsers as [|id allUsers IH]; intros selected ND; simpl.
  - assumption.
  - apply IH, JSSet_add_NoDup, ND.
Qed.

Lemma JSSet_delete_In (k x : Z) (s : JSSet.t Z) :
  In x (JSSet.delete k s) <-> In x s /\ x <> k.
Proof.
  unfold JSSet.delete. rewrite filter_In. cbn.
  destruct (Z.eqb_spec k x); cbn; split; intros [A B]; split;
    auto; try discriminate; congruence.
Qed.

(** X5.  The three handlers of the user list keep the selection sound: no
    user is selected twice, and [lastSelectedUser] is -1 or a selected user.
    [toggleUser] changes the selection by the one user; [selectAllUsers] adds
    the listed users to those already selected and does not move
    [lastSelectedUser]. *)
Theorem selection_stays_sound :
  forall (st : state),
    NoDup (selectedUsers st) ->
    selection_ok st ->
    (forall id,
        let st' := toggleUser id st in
        NoDup (selectedUsers st') /\ selection_ok st'
        /\ (forall u, u <> id ->
              (In u (selectedUsers st') <-> In u (selectedUsers st)))
        /\ (In id (selectedUsers st') <-> ~ In id (selectedUsers st)))
    /\ (forall allUsers,
          let st' := selectAllUsers allUsers st in
          NoDup (selectedUsers st') /\ selection_ok st'
          /\ lastSelectedUser st' = lastSelectedUser st
          /\ (forall u,
                In u (selectedUsers st')
                <-> In u (selectedUsers st) \/ In u allUsers))
    /\ (let st' := deselectAllUsers st in
        selectedUsers st' = [] /\ lastSelectedUser st' = (-1)%Z).
Proof.
  intros st ND OK. split; [|split].
  - intros id st'. subst st'. unfold toggleUser, selection_ok.
    destruct (JSSet.has id (selectedUsers st)) eqn:A; cbn.
    + apply JSSet_has_In in A. split; [apply NoDup_filter, ND|].
      split; [auto|]. split.
      * intros u N. rewrite JSSet_delete_In. tauto.
      * rewrite JSSet_delete_In. tauto.
    + assert (~ In id (selectedUsers st)) as NI.
      { intros I. apply JSSet_has_In in I. congruence. }
      split; [apply JSSet_add_NoDup, ND|].
      split; [right; apply JSSet_add_In; auto|]. split.
      * intros u N. rewrite JSSet_add_In. tauto.
      * rewrite JSSet_add_In. tauto.
  - intros allUsers st'. subst st'. unfold selectAllUsers, selection_ok. cbn.
    split; [apply selectAll_NoDup, ND|].
    split; [|split; [reflexivity | apply selectAll_In]].
    destruct OK as [E | I]; [auto|]. right. apply selectAll_In. auto.
  - cbn. auto.
Qed.

(** An instance of X5: users 1 and 2 selected one after the other, then all
    users of the list 2, 3. *)
Lemma selection_stays_sound_witness :
  selectedUsers (selectAllUsers [2; 3]%Z two_users_selected) = [1; 2; 3]%Z
  /\ selection_ok (selectAllUsers [2; 3]%Z two_users_selected).
Proof.
  split; [reflexivity|].
  assert (ND : NoDup (selectedUsers two_users_selected)).
  { change (NoDup [1; 2]%Z). constructor; [|constructor; [|constructor]].
    - intros [E | []]. discriminate.
    - intros []. }
  assert (OK : selection_ok two_users_selected).
  { right. change (In 2%Z [1; 2]%Z). right. left. reflexivity. }
  destruct (proj1 (proj2 (selection_stays_sound ND OK)) [2; 3]%Z)
    as (_ & S & _).
  exact S.
Defined.

(** X6.  Selecting a user makes it the last selected user and, unless its id
    is -1, leaves the day-of section shown.  Deselecting any user sets
    [lastSelectedUser] to -1, so that the day-of section is hidden, also when
    other users stay selected. *)
Theorem deselecting_hides_the_dayof_section :
  forall (st : state) (id : Z),
    (JSSet.has id (selectedUsers st) = true ->
     lastSelectedUser (toggleUser id st) = (-1)%Z
     /\ updateDayofSection (toggleUser id st) = false)
    /\ (JSSet.has id (selectedUsers st) = false ->
        lastSelectedUser (toggleUser id st) = id
        /\ (id <> (-1)%Z -> updateDayofSection (toggleUser id st) = true)).
Proof.
  intros st id. unfold toggleUser, updateDayofSection. split; intros A; rewrite A.
  - cbn. split; [reflexivity|]. rewrite orb_true_r. reflexivity.
  - cbn [lastSelectedUser set_lastSelectedUser selectedUsers set_selectedUsers].
    split; [reflexivity|]. intros N.
    unfold JSSet.add. rewrite A. unfold JSSet.size. rewrite length_app.
    destruct (Z.eqb_spec (Z.of_nat (length (selectedUsers st) + length [id])) 0);
      [cbn in *; lia|].
    destruct (Z.eqb_spec id (-1)); [contradiction | reflexivity].
Qed.

(** An instance of X6: with users 1 and 2 selected, deselecting user 1 hides
    the day-of section although user 2 is still selected. *)
Lemma deselecting_hides_the_dayof_section_witness :
  selectedUsers (toggleUser 1 two_users_selected) = [2%Z]
  /\ lastSelectedUser (toggleUser 1 two_users_selected) = (-1)%Z
  /\ updateDayofSection (toggleUser 1 two_users_selected) = false.
Proof.
  split; [reflexivity|].
  apply (proj1 (deselecting_hides_the_dayof_section two_users_selected 1)).
  reflexivity.
Defined.

(** ** Navigation *)


(** ** The keys of the day-of maps *)

Lemma str_inj a b : str a = str b -> a = b.
Proof.
  unfold str. intros E.
  rewrite <- (string_of_list_ascii_of_string a),
    <- (string_of_list_ascii_of_string b).
  f_equal. revert E.
  generalize (list_ascii_of_string a) (list_ascii_of_string b).
  intros l. induction l as [|x l IH]; intros [|y l0]; cbn; try discriminate;
    [reflexivity|].
  intros [= E1 E2]. f_equal; [|apply IH, E2].
  rewrite <- (ascii_N_embedding x), <- (ascii_N_embedding y), E1. reflexivity.
Qed.

Lemma Z_to_int_not_nil z :
  Z.to_int z <> Decimal.Pos Decimal.Nil /\ Z.to_int z <> Decimal.Neg Decimal.Nil.
Proof.
  destruct z as [|p|p]; cbn; split; try discriminate;
    intros [= E]; apply (DecimalPos.Unsigned.to_uint_nonnil p E).
Qed.

Lemma string_of_Z_inj z z' : string_of_Z z = string_of_Z z' -> z = z'.
Proof.
  unfold string_of_Z. intros E. apply str_inj in E.
  assert (E' : Some (Z.to_int z) = Some (Z.to_int z')).
  { destruct (Z_to_int_not_nil z) as [A B], (Z_to_int_not_nil z') as [A' B'].
    rewrite <- (NilZero.isi _ A B), <- (NilZero.isi _ A' B'), E. reflexivity. }
  injection E' as E'.
  rewrite <- (DecimalZ.of_to z), <- (DecimalZ.of_to z'), E'. reflexivity.
Qed.

(** X7.  The keys [`c-${cuisine}`] and [`r-${id}`] tell the targets apart:
    two cuisines with the same key are the same cuisine, two restaurant ids
    with the same key are the same id, and the key of a cuisine is never the
    key of a restaurant. *)
Theorem dayof_keys_tell_targets_apart :
  (forall cuisine cuisine' : jsstring,
      str "c-" ++ cuisine = str "c-" ++ cuisine' -> cuisine = cuisine')
  /\ (forall id id' : Z,
        str "r-" ++ string_of_Z id = str "r-" ++ string_of_Z id' -> id = id')
  /\ (forall (cuisine : jsstring) (id : Z),
        jsstring_eqb (str "c-" ++ cuisine) (str "r-" ++ string_of_Z id) = false)
  /\ (forall rating rating' : dayof_rating,
        dayof_key rating = dayof_key rating' ->
        override_target (override_of rating)
        = override_target (override_of rating')).
Proof.
  assert (A : forall c c' : jsstring, str "c-" ++ c = str "c-" ++ c' -> c = c').
  { intros c c' E. apply app_inv_head in E. exact E. }
  assert (B : forall id id' : Z,
             str "r-" ++ string_of_Z id = str "r-" ++ string_of_Z id' ->
             id = id').
  { intros id id' E. apply app_inv_head in E. apply string_of_Z_inj, E. }
  split; [exact A|]. split; [exact B|]. split.
  - intros c id. destruct (jsstring_eqb_spec (str "c-" ++ c)
                             (str "r-" ++ string_of_Z id)) as [E|]; [|reflexivity].
    cbn in E. discriminate.
  - intros [id r | c r] [id' r' | c' r']; cbn [dayof_key override_of override_target];
      intros E.
    + f_equal. apply B, E.
    + cbn in E. discriminate.
    + cbn in E. discriminate.
    + f_equal. apply A, E.
Qed.

(** An instance of X7: restaurants 1 and 10, and a cuisine that is called
    "1". *)
Lemma dayof_keys_tell_targets_apart_witness :
  dayof_key (DayofRestaurant 1 5.0) = str "r-1"
  /\ dayof_key (DayofRestaurant 10 5.0) = str "r-10"
  /\ dayof_key (DayofCuisine (str "1") 5.0) = str "c-1"
  /\ jsstring_eqb (str "c-" ++ str "1") (str "r-" ++ string_of_Z 1) = false.
Proof.
  split; [reflexivity|]. split; [reflexivity|]. split; [reflexivity|].
  apply (proj1 (proj2 (proj2 dayof_keys_tell_targets_apart))).
Defined.

(** ** What every reachable state satisfies *)

Lemma state_ok_same st st' :
  selectedUsers st' = selectedUsers st ->
  restaurantRatings st' = restaurantRatings st ->
  cuisineRatings st' = cuisineRatings st ->
  dayofRatingsByUser st' = dayofRatingsByUser st ->
  state_ok st -> state_ok st'.
Proof. unfold state_ok. intros -> -> -> ->. tauto. Qed.

Lemma dayof_map_ok_empty : dayof_map_ok JSMap.empty.
Proof. repeat split; [constructor | constructor | cbn; lia]. Qed.

Lemma dayof_map_ok_delete key m :
  dayof_map_ok m -> dayof_map_ok (JSMap.delete key m).
Proof.
  intros (F & ND & S). split; [|split].
  - apply Forall_forall. intros kv I. rewrite Forall_forall in F.
    apply F. apply (In_delete _ _ _ I).
  - apply NoDup_keys_delete, ND.
  - pose proof (size_delete key m). lia.
Qed.

Lemma dayof_map_ok_add key fresh m :
  dayof_map_ok m ->
  JSMap.has key m = false ->
  (JSMap.size m >=? 3)%Z = false ->
  key = dayof_key fresh ->
  dayof_map_ok (JSMap.set key fresh m).
Proof.
  intros (F & ND & S) A C K. split; [|split].
  - unfold JSMap.set. rewrite A. apply Forall_app. split; [assumption|].
    constructor; [exact K | constructor].
  - apply NoDup_keys_set, ND.
  - rewrite size_set_absent by assumption.
    destruct (Z.geb_spec (JSMap.size m) 3); [discriminate | lia].
Qed.

Lemma dayof_key_set_rating x rating :
  dayof_key (dayof_set_rating x rating) = dayof_key rating.
Proof. destruct rating; reflexivity. Qed.

Lemma Forall_replace (P : jsstring * dayof_rating -> Prop) key v
  (m : JSMap.t jsstring dayof_rating) :
  Forall P m -> P (key, v) -> Forall P (JSMap.replace key v m).
Proof.
  intros F Pv. induction m as [|[k0 v0] m IH]; cbn [JSMap.replace];
    [constructor|].
  inversion F as [|? ? P0 F']; subst.
  destruct (keqb_spec key k0) as [<-|N]; constructor; auto.
Qed.

Lemma dayof_map_ok_update x key rating m :
  dayof_map_ok m ->
  JSMap.get key m = Some rating ->
  dayof_map_ok (JSMap.set key (dayof_set_rating x rating) m).
Proof.
  intros (F & ND & S) G.
  assert (A : JSMap.has key m = true) by (apply has_get; congruence).
  split; [|split].
  - unfold JSMap.set. rewrite A. apply Forall_replace; [assumption|].
    cbn. rewrite dayof_key_set_rating.
    rewrite Forall_forall in F. apply (F (key, rating)). apply get_In, G.
  - apply NoDup_keys_set, ND.
  - rewrite size_set_present; assumption.
Qed.

Lemma state_ok_store m st :
  state_ok st -> dayof_map_ok m -> state_ok (store_dayofRatings m st).
Proof.
  intros (A & B & C & D) M. split; [|split; [|split]]; try assumption.
  intros user m'. cbn.
  destruct (Z.eq_dec (lastSelectedUser st) user) as [<- | N].
  - rewrite get_set_same. intros [= <-]. assumption.
  - rewrite get_set_other by assumption. apply D.
Qed.

Lemma state_ok_removeDayofRating key st :
  state_ok st -> state_ok (removeDayofRating key st).
Proof.
  intros OK. unfold removeDayofRating.
  destruct (JSMap.get (lastSelectedUser st) (dayofRatingsByUser st))
    as [m|] eqn:G; [|assumption].
  apply state_ok_store; [assumption|].
  apply dayof_map_ok_delete. apply (proj2 (proj2 (proj2 OK)) _ _ G).
Qed.

Lemma state_ok_toggleDayof key fresh st :
  key = dayof_key fresh ->
  state_ok st -> state_ok (toggleDayof key fresh st).
Proof.
  intros K OK. unfold toggleDayof.
  set (st1 := if negb (JSMap.has _ _) then _ else st).
  assert (OK1 : state_ok st1).
  { subst st1. destruct (negb _); [|assumption].
    destruct OK as (A & B & C & D).
    split; [|split; [|split]]; try assumption.
    intros user m. cbn.
    destruct (Z.eq_dec (lastSelectedUser st) user) as [<- | N].
    - rewrite get_set_same. intros [= <-]. apply dayof_map_ok_empty.
    - rewrite get_set_other by assumption. apply D. }
  destruct (JSMap.get (lastSelectedUser st1) (dayofRatingsByUser st1))
    as [m|] eqn:G; [|assumption].
  destruct (JSMap.has key m) eqn:A.
  - apply state_ok_removeDayofRating, OK1.
  - destruct (JSMap.size m >=? 3)%Z eqn:C.
    + revert OK1. apply state_ok_same; reflexivity.
    + apply state_ok_store; [assumption|].
      apply dayof_map_ok_add; try assumption.
      apply (proj2 (proj2 (proj2 OK1)) _ _ G).
Qed.

Lemma state_ok_run_dayof_op parseFloat op st :
  state_ok st -> state_ok (run_dayof_op parseFloat op st).
Proof.
  intros OK. destruct op as [cuisine | id | key value | key]; cbn [run_dayof_op].
  - rewrite toggleDayofCuisine_unfold.
    apply state_ok_toggleDayof; [reflexivity | assumption].
  - rewrite toggleDayofRestaurant_unfold.
    apply state_ok_toggleDayof; [reflexivity | assumption].
  - unfold updateDayofRating.
    destruct (JSMap.get (lastSelectedUser st) (dayofRatingsByUser st))
      as [m|] eqn:G; [|assumption].
    destruct (JSMap.get key m) as [rating|] eqn:A; [|assumption].
    apply state_ok_store; [assumption|].
    apply dayof_map_ok_update; [|assumption].
    apply (proj2 (proj2 (proj2 OK)) _ _ G).
  - apply state_ok_removeDayofRating, OK.
Qed.

Lemma NoDup_empty_set : NoDup (@JSSet.empty Z).
Proof. constructor. Qed.

Lemma NoDup_empty_keys (K V : Type) : NoDup (map fst (@JSMap.empty K V)).
Proof. constructor. Qed.

Lemma state_ok_handle parseFloat e st :
  state_ok st -> state_ok (handle parseFloat e st).
Proof.
  intros OK. pose proof OK as (A & B & C & D).
  destruct e; cbn [handle].
  - (* switchScreen *)
    unfold switchScreen.
    destruct newScreen as [[|c s]|]; destruct (currentScreen st);
      try (revert OK; apply state_ok_same; reflexivity);
      (split; [|split; [|split]]);
      first [apply NoDup_empty_set | apply NoDup_empty_keys | assumption].
  - (* loadRestaurants *)
    destruct res; revert OK; apply state_ok_same; reflexivity.
  - (* toggleCuisine *)
    unfold toggleCuisine. destruct (JSMap.has cuisine (cuisineRatings st));
      (split; [|split; [|split]]); cbn [selectedUsers restaurantRatings
        cuisineRatings dayofRatingsByUser set_cuisineRatings]; try assumption.
    + apply NoDup_keys_delete, C.
    + apply NoDup_keys_set, C.
  - (* updateCuisineRating *)
    unfold updateCuisineRating.
    (split; [|split; [|split]]); cbn [selectedUsers restaurantRatings
        cuisineRatings dayofRatingsByUser set_cuisineRatings]; try assumption.
    apply NoDup_keys_set, C.
  - (* removeCuisine *)
    unfold removeCuisine.
    (split; [|split; [|split]]); cbn [selectedUsers restaurantRatings
        cuisineRatings dayofRatingsByUser set_cuisineRatings]; try assumption.
    apply NoDup_keys_delete, C.
  - (* toggleRestaurant *)
    unfold toggleRestaurant. destruct (JSMap.has id (restaurantRatings st));
      (split; [|split; [|split]]); cbn [selectedUsers restaurantRatings
        cuisineRatings dayofRatingsByUser set_restaurantRatings];
      try assumption.
    + apply NoDup_keys_delete, B.
    + apply NoDup_keys_set, B.
  - (* updateRating *)
    unfold updateRating.
    (split; [|split; [|split]]); cbn [selectedUsers restaurantRatings
        cuisineRatings dayofRatingsByUser set_restaurantRatings];
      try assumption.
    apply NoDup_keys_set, B.
  - (* removeRestaurant *)
    unfold removeRestaurant.
    (split; [|split; [|split]]); cbn [selectedUsers restaurantRatings
        cuisineRatings dayofRatingsByUser set_restaurantRatings];
      try assumption.
    apply NoDup_keys_delete, B.
  - (* createUser *)
    unfold createUser. destruct (_ && _); cbn [fst];
      revert OK; apply state_ok_same; reflexivity.
  - (* createUser_resume *)
    destruct res; cbn [createUser_resume];
      try (revert OK; apply state_ok_same; reflexivity).
    (split; [|split; [|split]]);
      first [apply NoDup_empty_keys | assumption].
  - (* toggleUser *)
    split; [apply toggleUser_distinct, A|].
    unfold toggleUser. destruct (JSSet.has id (selectedUsers st));
      (split; [|split]); assumption.
  - (* selectAllUsers *)
    split; [apply selectAll_NoDup, A|]. split; [|split]; assumption.
  - (* deselectAllUsers *)
    split; [apply NoDup_empty_set|]. split; [|split]; assumption.
  - (* deleteSelectedUsers *)
    unfold deleteSelectedUsers.
    destruct (JSSet.size (selectedUsers st) =? 0)%Z; cbn [fst];
      [revert OK; apply state_ok_same; reflexivity|].
    destruct (negb _); cbn [fst]; [assumption|].
    split; [apply NoDup_empty_set|]. split; [|split]; assumption.
  - (* day-of operations *)
    apply state_ok_run_dayof_op, OK.
  - (* saveAllDayofRatings_resume *)
    destruct rejected; revert OK; apply state_ok_same; reflexivity.
  - (* callMagic *)
    unfold callMagic. destruct (_ <? _)%Z; cbn [fst];
      revert OK; apply state_ok_same; reflexivity.
  - (* callMagic_resume *)
    destruct res as [m | m | body]; cbn [callMagic_resume];
      try (revert OK; apply state_ok_same; reflexivity).
    unfold renderMatchingList. cbn [matching switchScreen str].
    revert OK. apply state_ok_same;
      destruct body as [[|e l]|]; reflexivity.
Qed.


Lemma state_ok_initial : state_ok initial_state.
Proof.
  split; [constructor|]. split; [constructor|]. split; [constructor|].
  intros user m. discriminate.
Qed.

Lemma state_ok_fold parseFloat events : forall st,
  state_ok st ->
  state_ok (fold_left (fun st e => handle parseFloat e st) events st).
Proof.
  induction events as [|e events IH]; intros st OK; [assumption|].
  cbn. apply IH, state_ok_handle, OK.
Qed.

Lemma state_ok_run parseFloat events : state_ok (run parseFloat events).
Proof. apply state_ok_fold, state_ok_initial. Qed.

(** X8.  Whatever the page does, in whatever order, from the start of the
    script: no user is selected twice, no restaurant and no cuisine has two
    ratings in the form, and the day-of map of every user holds three ratings
    at most, each under the key of its own target and no key twice. *)
Theorem every_reachable_state_is_ok :
  forall (parseFloat : jsstring -> float) (events : list event),
    let st := run parseFloat events in
    NoDup (selectedUsers st)
    /\ NoDup (map fst (restaurantRatings st))
    /\ NoDup (map fst (cuisineRatings st))
    /\ (forall user dayofRatings,
          JSMap.get user (dayofRatingsByUser st) = Some dayofRatings ->
          (JSMap.size dayofRatings <= 3)%Z
          /\ NoDup (map fst dayofRatings)
          /\ Forall (fun kv => fst kv = dayof_key (snd kv)) dayofRatings).
Proof.
  intros parseFloat events st.
  destruct (state_ok_run parseFloat events) as (A & B & C & D).
  split; [exact A|]. split; [exact B|]. split; [exact C|].
  intros user m G. destruct (D user m G) as (F & ND & S). auto.
Qed.





Lemma string_of_Z_small n :
  (0 <= n <= 3)%Z ->
  In (string_of_Z n ++ str "/3") [str "0/3"; str "1/3"; str "2/3"; str "3/3"].
Proof.
  intros R.
  assert (n = 0 \/ n = 1 \/ n = 2 \/ n = 3)%Z as [-> | [-> | [-> | ->]]] by lia;
    cbn; auto.
Qed.

(** X13.  In a state as X8 describes it, the counter of the day-of section
    reads 0/3, 1/3, 2/3 or 3/3: the number of day-of ratings of the last
    selected user, 0 when that user has no map.  The section lists at most
    that many items; a rating of a restaurant that the catalog does not have
    is counted but not listed. *)
Theorem dayof_counter_is_within_three :
  forall (st : state),
    state_ok st ->
    let (counter, items) := renderDayofSelected st in
    In counter [str "0/3"; str "1/3"; str "2/3"; str "3/3"]
    /\ counter
       = string_of_Z (JSMap.size (shown_dayofRatings st)) ++ str "/3"
    /\ (Z.of_nat (length items) <= JSMap.size (shown_dayofRatings st))%Z
    /\ (forall rating, In rating items ->
          In rating (map snd (shown_dayofRatings st))
          /\ forall id r, rating = DayofRestaurant id r ->
               exists rest, In rest (allRestaurants st)
                            /\ Restaurant.id rest = id).
Proof.
  intros st (_ & _ & _ & D). unfold renderDayofSelected, shown_dayofRatings.
  destruct (JSMap.get (lastSelectedUser st) (dayofRatingsByUser st))
    as [m|] eqn:G.
  - destruct (D _ _ G) as (_ & _ & S). split; [|split; [|split]].
    + apply string_of_Z_small. unfold JSMap.size in *. lia.
    + reflexivity.
    + unfold JSMap.size, JSMap.entries.
      pose proof (filter_length_le
                    (fun rating =>
                       match rating with
                       | DayofCuisine _ _ => true
                       | DayofRestaurant id _ =>
                           existsb (fun r => (Restaurant.id r =? id)%Z)
                             (allRestaurants st)
                       end) (map snd m)) as L.
      rewrite length_map in L. lia.
    + intros rating I. apply filter_In in I. destruct I as [I F].
      split; [exact I|]. intros id r ->.
      apply existsb_exists in F. destruct F as (rest & I' & E).
      exists rest. split; [assumption | apply Z.eqb_eq, E].
  - split; [cbn; auto|]. split; [reflexivity|]. split; [cbn; lia|].
    intros rating [].
Qed.

(** An instance of X13: user 1 of [three_dayof_ratings], whose restaurant 4
    is not in the (empty) catalog. *)
Lemma dayof_counter_is_within_three_witness :
  renderDayofSelected (run (fun _ => 5.0) (removelast two_users_clicks))
  = (str "3/3", [DayofCuisine (str "Thai") 5.0; DayofCuisine (str "Vegan") 5.0])
  /\ In (str "3/3") [str "0/3"; str "1/3"; str "2/3"; str "3/3"].
Proof.
  assert (E : renderDayofSelected
                (run (fun _ => 5.0) (removelast two_users_clicks))
              = (str "3/3",
                 [DayofCuisine (str "Thai") 5.0;
                  DayofCuisine (str "Vegan") 5.0]))
    by (vm_compute; reflexivity).
  split; [exact E|].
  pose proof (@dayof_counter_is_within_three
                (run (fun _ => 5.0) (removelast two_users_clicks))
                (state_ok_run _ _)) as A.
  rewrite E in A. exact (proj1 A).
Defined.

(** ** Day-of ratings, again *)

Section JSMapSet.
Context {K V : Type} `{EqKey K}.
Implicit Types (k : K) (v : V) (m : JSMap.t K V).

Lemma replace_replace k v v' m :
  JSMap.replace k v (JSMap.replace k v' m) = JSMap.replace k v m.
Proof.
  induction m as [|[k0 v0] m IH]; cbn [JSMap.replace]; auto.
  destruct (keqb k k0) eqn:E; cbn [JSMap.replace]; rewrite E; [|rewrite IH];
    reflexivity.
Qed.

Lemma set_set k v v' m :
  JSMap.has k m = true -> JSMap.set k v (JSMap.set k v' m) = JSMap.set k v m.
Proof.
  intros A. unfold JSMap.set at 1. rewrite has_set_same.
  unfold JSMap.set. rewrite A. apply replace_replace.
Qed.

Lemma size_delete_present k m :
  JSMap.has k m = true -> (JSMap.size (JSMap.delete k m) < JSMap.size m)%Z.
Proof.
  unfold JSMap.has, JSMap.size, JSMap.delete.
  induction m as [|[k0 v0] m IH]; cbn [JSMap.get filter length fst];
    [discriminate|].
  destruct (keqb k k0); cbn [negb length].
  - intros _.
    pose proof (filter_length_le (fun kv => negb (keqb k (fst kv))) m). lia.
  - intros A. specialize (IH A). lia.
Qed.

End JSMapSet.

Ltac state_simpl :=
  cbn [lastSelectedUser dayofRatingsByUser selectedUsers restaurantRatings
       cuisineRatings allRestaurants allCuisines matching alerts
       matchingResults currentScreen
       set_dayofRatingsByUser set_alerts set_selectedUsers
       set_lastSelectedUser set_restaurantRatings set_cuisineRatings
       set_matching set_matchingResults set_currentScreen set_allCuisines
       set_allRestaurants showAlert store_dayofRatings].

(** The map that the page shows after a toggle, from the one before. *)
Lemma shown_toggleDayof key fresh st :
  shown_dayofRatings (toggleDayof key fresh st)
  = let dayofRatings := shown_dayofRatings st in
    if JSMap.has key dayofRatings then JSMap.delete key dayofRatings
    else if (JSMap.size dayofRatings >=? 3)%Z then dayofRatings
    else JSMap.set key fresh dayofRatings.
Proof.
  unfold toggleDayof, shown_dayofRatings.
  destruct (JSMap.get (lastSelectedUser st) (dayofRatingsByUser st))
    as [m|] eqn:G.
  - replace (JSMap.has (lastSelectedUser st) (dayofRatingsByUser st))
      with true by (symmetry; apply has_get; congruence).
    cbn [negb]. rewrite G. cbv zeta.
    destruct (JSMap.has key m).
    + unfold removeDayofRating. rewrite G. state_simpl.
      rewrite get_set_same. reflexivity.
    + destruct (JSMap.size m >=? 3)%Z; state_simpl.
      * rewrite G. reflexivity.
      * rewrite get_set_same. reflexivity.
  - replace (JSMap.has (lastSelectedUser st) (dayofRatingsByUser st))
      with false by (symmetry; apply has_false_get; assumption).
    cbn [negb]. state_simpl. rewrite get_set_same.
    change (JSMap.has key JSMap.empty) with false.
    change (JSMap.size (@JSMap.empty jsstring dayof_rating) >=? 3)%Z with false.
    cbv iota. state_simpl. rewrite get_set_same. reflexivity.
Qed.

Lemma toggleDayof_keeps_catalog key fresh st :
  allRestaurants (toggleDayof key fresh st) = allRestaurants st
  /\ allCuisines (toggleDayof key fresh st) = allCuisines st
  /\ lastSelectedUser (toggleDayof key fresh st) = lastSelectedUser st.
Proof.
  unfold toggleDayof.
  set (st1 := if negb (JSMap.has _ _) then _ else st).
  assert (E : allRestaurants st1 = allRestaurants st
              /\ allCuisines st1 = allCuisines st
              /\ lastSelectedUser st1 = lastSelectedUser st)
    by (subst st1; destruct (negb _); repeat split).
  destruct E as (E1 & E2 & E3). rewrite <- E1, <- E2, <- E3.
  destruct (JSMap.get (lastSelectedUser st1) (dayofRatingsByUser st1))
    as [m|]; [|repeat split].
  destruct (JSMap.has key m).
  - unfold removeDayofRating.
    destruct (JSMap.get (lastSelectedUser st1) (dayofRatingsByUser st1));
      repeat split.
  - destruct (JSMap.size m >=? 3)%Z; repeat split.
Qed.

(** Toggling twice, for either kind of target. *)
Lemma toggleDayof_twice key fresh st dayofRatings :
  JSMap.get (lastSelectedUser st) (dayofRatingsByUser st) = Some dayofRatings ->
  (JSMap.size dayofRatings <= 3)%Z ->
  (JSMap.has key dayofRatings = false ->
   (JSMap.size dayofRatings < 3)%Z ->
   toggleDayof key fresh (toggleDayof key fresh st) = st)
  /\ (JSMap.has key dayofRatings = true ->
      JSMap.get key (shown_dayofRatings
                       (toggleDayof key fresh (toggleDayof key fresh st)))
      = Some fresh).
Proof.
  intros G S. split.
  - intros A L.
    assert (HL : JSMap.has (lastSelectedUser st) (dayofRatingsByUser st) = true)
      by (apply has_get; congruence).
    assert (E1 : toggleDayof key fresh st
                 = store_dayofRatings (JSMap.set key fresh dayofRatings) st).
    { unfold toggleDayof. rewrite HL. cbn [negb]. rewrite G, A.
      destruct (Z.geb_spec (JSMap.size dayofRatings) 3); [lia | reflexivity]. }
    rewrite E1. unfold toggleDayof. state_simpl.
    rewrite has_set_same. cbn [negb]. state_simpl.
    rewrite get_set_same, has_set_same.
    unfold removeDayofRating. state_simpl.
    rewrite get_set_same, delete_set_absent by assumption.
    unfold store_dayofRatings. state_simpl.
    rewrite set_set by assumption.
    rewrite set_same_value by assumption.
    destruct st; reflexivity.
  - intros A.
    assert (Sh : shown_dayofRatings st = dayofRatings)
      by (unfold shown_dayofRatings; rewrite G; reflexivity).
    rewrite !shown_toggleDayof. cbv zeta. rewrite !Sh, A.
    rewrite has_delete_same.
    pose proof (size_delete_present key dayofRatings A).
    destruct (Z.geb_spec (JSMap.size (JSMap.delete key dayofRatings)) 3);
      [lia|].
    apply get_set_same.
Qed.

(** X10.  Toggling the same day-of cuisine, or restaurant, twice for a user
    who has a day-of map within the limit: when the target was not chosen and
    there was room for it, the state is exactly what it was; when it was
    chosen, it is chosen again, with the rating 5.0. *)
Theorem dayof_toggle_twice :
  forall (st : state) (dayofRatings : JSMap.t jsstring dayof_rating),
    JSMap.get (lastSelectedUser st) (dayofRatingsByUser st) = Some dayofRatings ->
    (JSMap.size dayofRatings <= 3)%Z ->
    (forall cuisine,
        (JSMap.has (str "c-" ++ cuisine) dayofRatings = false ->
         (JSMap.size dayofRatings < 3)%Z ->
         toggleDayofCuisine cuisine (toggleDayofCuisine cuisine st) = st)
        /\ (JSMap.has (str "c-" ++ cuisine) dayofRatings = true ->
            JSMap.get (str "c-" ++ cuisine)
              (shown_dayofRatings
                 (toggleDayofCuisine cuisine (toggleDayofCuisine cuisine st)))
            = Some (DayofCuisine cuisine 5.0)))
    /\ (forall id,
          (JSMap.has (str "r-" ++ string_of_Z id) dayofRatings = false ->
           (JSMap.size dayofRatings < 3)%Z ->
           toggleDayofRestaurant id (toggleDayofRestaurant id st) = st)
          /\ (JSMap.has (str "r-" ++ string_of_Z id) dayofRatings = true ->
              JSMap.get (str "r-" ++ string_of_Z id)
                (shown_dayofRatings
                   (toggleDayofRestaurant id (toggleDayofRestaurant id st)))
              = Some (DayofRestaurant id 5.0))).
Proof.
  intros st m G S. split.
  - intros cuisine. rewrite !toggleDayofCuisine_unfold.
    apply (toggleDayof_twice _ _ _ G S).
  - intros id. rewrite !toggleDayofRestaurant_unfold.
    apply (toggleDayof_twice _ _ _ G S).
Qed.

(** An instance of X10: "Vegan" is not chosen, "Thai" is, at 8.5. *)
Lemma dayof_toggle_twice_witness :
  toggleDayofCuisine (str "Vegan") (toggleDayofCuisine (str "Vegan")
                                      thai_rated_high)
  = thai_rated_high
  /\ JSMap.get (str "c-Thai")
       (shown_dayofRatings
          (toggleDayofCuisine (str "Thai")
             (toggleDayofCuisine (str "Thai") thai_rated_high)))
     = Some (DayofCuisine (str "Thai") 5.0).
Proof.
  assert (G : JSMap.get (lastSelectedUser thai_rated_high)
                (dayofRatingsByUser thai_rated_high)
              = Some [(str "c-Thai", DayofCuisine (str "Thai") 8.5);
                      (str "r-4", DayofRestaurant 4 5.0)])
    by reflexivity.
  assert (S : (JSMap.size [(str "c-Thai", DayofCuisine (str "Thai") 8.5);
                           (str "r-4", DayofRestaurant 4 5.0)] <= 3)%Z)
    by (cbn; lia).
  destruct (dayof_toggle_twice _ G S) as [C _].
  split.
  - apply (proj1 (C (str "Vegan"))); [reflexivity | cbn; lia].
  - apply (proj2 (C (str "Thai"))). reflexivity.
Defined.

(** X11.  Moving the slider of a day-of rating that the last selected user
    has stores [parseFloat] of its value as the rating of that entry and
    changes nothing else: the entry stays about the same target and under the
    same key, and the keys, the order and every other entry of the map are as
    they were. *)
Theorem updateDayofRating_sets_one_rating :
  forall (parseFloat : jsstring -> float) (st : state)
         (dayofRatings : JSMap.t jsstring dayof_rating)
         (key value : jsstring) (rating : dayof_rating),
    JSMap.get (lastSelectedUser st) (dayofRatingsByUser st) = Some dayofRatings ->
    JSMap.get key dayofRatings = Some rating ->
    let updated :=
      shown_dayofRatings (updateDayofRating parseFloat key value st) in
    JSMap.get key updated = Some (dayof_set_rating (parseFloat value) rating)
    /\ override_target (override_of (dayof_set_rating (parseFloat value) rating))
       = override_target (override_of rating)
    /\ map fst updated = map fst dayofRatings
    /\ (forall key', key' <> key ->
          JSMap.get key' updated = JSMap.get key' dayofRatings).
Proof.
  intros parseFloat st m key value rating G A updated. subst updated.
  unfold updateDayofRating, shown_dayofRatings. rewrite G, A. state_simpl.
  rewrite get_set_same. split; [apply get_set_same|].
  split; [destruct rating; reflexivity|].
  split.
  - apply keys_set_present. apply has_get. congruence.
  - intros key' N. apply get_set_other. congruence.
Qed.

(** An instance of X11: the slider of "Thai" moved from 8.5 to a value that
    parses to 2.5. *)
Lemma updateDayofRating_sets_one_rating_witness :
  shown_dayofRatings
    (updateDayofRating (fun _ => 2.5) (str "c-Thai") (str "2.5") thai_rated_high)
  = [(str "c-Thai", DayofCuisine (str "Thai") 2.5);
     (str "r-4", DayofRestaurant 4 5.0)]
  /\ JSMap.get (str "c-Thai")
       (shown_dayofRatings
          (updateDayofRating (fun _ => 2.5) (str "c-Thai") (str "2.5")
             thai_rated_high))
     = Some (DayofCuisine (str "Thai") 2.5).
Proof.
  split; [vm_compute; reflexivity|].
  exact (proj1 (@updateDayofRating_sets_one_rating (fun _ => 2.5)
                  thai_rated_high
                  [(str "c-Thai", DayofCuisine (str "Thai") 8.5);
                   (str "r-4", DayofRestaurant 4 5.0)]
                  (str "c-Thai") (str "2.5") (DayofCuisine (str "Thai") 8.5)
                  eq_refl eq_refl)).
Defined.

Lemma has_toggled key key' fresh
  (m : JSMap.t jsstring dayof_rating) :
  key' <> key ->
  JSMap.has key'
    (if JSMap.has key m then JSMap.delete key m
     else if (JSMap.size m >=? 3)%Z then m
     else JSMap.set key fresh m)
  = JSMap.has key' m.
Proof.
  intros N. apply has_ext.
  destruct (JSMap.has key m); [apply get_delete_other; congruence|].
  destruct (JSMap.size m >=? 3)%Z; [reflexivity|].
  apply get_set_other. congruence.
Qed.

Lemma key_kinds_differ cuisine id :
  str "c-" ++ cuisine <> str "r-" ++ string_of_Z id.
Proof. cbn. discriminate. Qed.

(** X12.  In the grids of the day-of section, a toggle changes the mark of
    the card that was clicked at most.  Toggling a cuisine leaves the whole
    restaurant grid and the mark of every other cuisine as they were; the
    cuisine itself is marked afterwards exactly if it was not marked before
    and the user had fewer than three ratings.  Likewise for a restaurant. *)
Theorem dayof_toggle_marks_one_card :
  forall (st : state),
    (forall cuisine,
        let st' := toggleDayofCuisine cuisine st in
        renderDayofRestaurants st' = renderDayofRestaurants st
        /\ (forall cuisine', cuisine' <> cuisine ->
              JSMap.has (str "c-" ++ cuisine') (shown_dayofRatings st')
              = JSMap.has (str "c-" ++ cuisine') (shown_dayofRatings st))
        /\ JSMap.has (str "c-" ++ cuisine) (shown_dayofRatings st')
           = negb (JSMap.has (str "c-" ++ cuisine) (shown_dayofRatings st))
             && negb (JSMap.size (shown_dayofRatings st) >=? 3)%Z)
    /\ (forall id,
          let st' := toggleDayofRestaurant id st in
          renderDayofCuisines st' = renderDayofCuisines st
          /\ (forall id', id' <> id ->
                JSMap.has (str "r-" ++ string_of_Z id') (shown_dayofRatings st')
                = JSMap.has (str "r-" ++ string_of_Z id')
                    (shown_dayofRatings st))
          /\ JSMap.has (str "r-" ++ string_of_Z id) (shown_dayofRatings st')
             = negb (JSMap.has (str "r-" ++ string_of_Z id)
                       (shown_dayofRatings st))
               && negb (JSMap.size (shown_dayofRatings st) >=? 3)%Z).
Proof.
  assert (Own : forall key fresh st,
             JSMap.has key (shown_dayofRatings (toggleDayof key fresh st))
             = negb (JSMap.has key (shown_dayofRatings st))
               && negb (JSMap.size (shown_dayofRatings st) >=? 3)%Z).
  { intros key fresh st. rewrite shown_toggleDayof. cbv zeta.
    destruct (JSMap.has key (shown_dayofRatings st)) eqn:A.
    - apply has_delete_same.
    - destruct (JSMap.size (shown_dayofRatings st) >=? 3)%Z.
      + rewrite A. reflexivity.
      + apply has_set_same. }
  intros st. split.
  - intros cuisine st'. subst st'. rewrite toggleDayofCuisine_unfold.
    split; [|split].
    + unfold renderDayofRestaurants.
      destruct (toggleDayof_keeps_catalog (str "c-" ++ cuisine)
                  (DayofCuisine cuisine 5.0) st) as (-> & _ & _).
      destruct (allRestaurants st) as [|r rs]; [reflexivity|].
      f_equal. apply map_ext. intros rest. f_equal.
      rewrite shown_toggleDayof. apply has_toggled.
      intros E. apply (@key_kinds_differ cuisine (Restaurant.id rest)).
      symmetry. exact E.
    + intros c' N. rewrite shown_toggleDayof. apply has_toggled.
      intros E. apply app_inv_head in E. contradiction.
    + apply Own.
  - intros id st'. subst st'. rewrite toggleDayofRestaurant_unfold.
    split; [|split].
    + unfold renderDayofCuisines.
      destruct (toggleDayof_keeps_catalog (str "r-" ++ string_of_Z id)
                  (DayofRestaurant id 5.0) st) as (_ & -> & _).
      destruct (allCuisines st) as [|c cs]; [reflexivity|].
      f_equal. apply map_ext. intros c'. f_equal.
      rewrite shown_toggleDayof. apply has_toggled. apply key_kinds_differ.
    + intros id' N. rewrite shown_toggleDayof. apply has_toggled.
      intros E. apply app_inv_head in E. apply string_of_Z_inj in E.
      contradiction.
    + apply Own.
Qed.

(** An instance of X12: user 1 of [thai_rated_high] clicks "Vegan". *)
Lemma dayof_toggle_marks_one_card_witness :
  JSMap.has (str "c-Vegan")
    (shown_dayofRatings (toggleDayofCuisine (str "Vegan") thai_rated_high))
  = true
  /\ JSMap.has (str "c-Thai")
       (shown_dayofRatings (toggleDayofCuisine (str "Vegan") thai_rated_high))
     = true.
Proof.
  destruct (proj1 (dayof_toggle_marks_one_card thai_rated_high) (str "Vegan"))
    as (_ & Other & Own).
  split.
  - exact (eq_trans Own eq_refl).
  - assert (N : str "Thai" <> str "Vegan") by discriminate.
    exact (eq_trans (Other (str "Thai") N) eq_refl).
Defined.

(** ** Creating and deleting users *)

Lemma size_zero {K V : Type} (m : JSMap.t K V) :
  (JSMap.size m =? 0)%Z = true <-> m = [].
Proof.
  unfold JSMap.size. destruct m as [|p m]; split; try reflexivity;
    discriminate.
Qed.

(** X14.  [createUser] sends nothing, and shows "Please select at least one
    restaurant or cuisine", when the form has no rating at all.  Otherwise it
    sends the ratings of the form as they stand, one entry per rated
    restaurant and cuisine, and leaves the state alone.  When the server
    accepts, the form is emptied and the alert announces the number of ratings
    that the form then held; when the request fails in any way, the ratings of
    the form are kept and the alert is an error. *)
Theorem createUser_sends_the_form :
  forall (st : state) (name : jsstring),
    (restaurantRatings st = [] -> cuisineRatings st = [] ->
     createUser name st
     = (showAlert createAlert
          (str "Please select at least one restaurant or cuisine")
          AlertError st, None))
    /\ (restaurantRatings st <> [] \/ cuisineRatings st <> [] ->
        exists req,
          createUser name st = (st, Some req)
          /\ username req = name
          /\ (forall id rating,
                NoDup (map fst (restaurantRatings st)) ->
                (In (id, rating) (preferences req)
                 <-> JSMap.get id (restaurantRatings st) = Some rating))
          /\ (forall cuisine rating,
                NoDup (map fst (cuisineRatings st)) ->
                (In (cuisine, rating) (cuisine_preferences req)
                 <-> JSMap.get cuisine (cuisineRatings st) = Some rating))
          /\ (let st' := createUser_resume CreateOk st in
              restaurantRatings st' = [] /\ cuisineRatings st' = []
              /\ alerts st' createAlert
                 = Some {| alert_message :=
                             str "User created with "
                             ++ string_of_Z
                                  (Z.of_nat (length (preferences req)
                                             + length (cuisine_preferences req)))
                             ++ str " preferences!";
                           alert_class := AlertSuccess |})
          /\ (forall res, res <> CreateOk ->
                let st' := createUser_resume res st in
                restaurantRatings st' = restaurantRatings st
                /\ cuisineRatings st' = cuisineRatings st
                /\ exists message,
                    message <> []
                    /\ alerts st' createAlert
                       = Some {| alert_message := message;
                                 alert_class := AlertError |})).
Proof.
  intros st name. split.
  - intros Er Ec. unfold createUser. rewrite Er, Ec. reflexivity.
  - intros NE. unfold createUser.
    replace ((JSMap.size (restaurantRatings st) =? 0)%Z
             && (JSMap.size (cuisineRatings st) =? 0)%Z) with false.
    + eexists. split; [reflexivity|]. cbn [username preferences cuisine_preferences].
      split; [reflexivity|]. split; [|split; [|split]].
      * intros id rating ND. split; [apply In_get, ND | apply get_In].
      * intros c rating ND. split; [apply In_get, ND | apply get_In].
      * cbn. repeat split. unfold JSMap.entries, JSMap.size.
        rewrite Nat2Z.inj_add. reflexivity.
      * intros res N.
        destruct res as [|error|]; [| |contradiction];
          cbn; (split; [reflexivity|]); (split; [reflexivity|]);
          eexists; (split; [|reflexivity]); try discriminate.
        destruct error; discriminate.
    + symmetry. apply andb_false_iff.
      destruct NE as [N | N]; [left | right];
        destruct (JSMap.size _ =? 0)%Z eqn:E; try reflexivity;
        apply size_zero in E; contradiction.
Qed.

(** An instance of X14 on [rated_form], which holds two ratings. *)
Lemma createUser_sends_the_form_witness :
  snd (createUser (str "ann") rated_form)
  = Some {| username := str "ann";
            preferences := [(7%Z, 8.5)];
            cuisine_preferences := [(str "Thai", 9.0)] |}
  /\ alerts (createUser_resume CreateOk rated_form) createAlert
     = Some {| alert_message := str "User created with 2 preferences!";
               alert_class := AlertSuccess |}
  /\ snd (createUser (str "ann") initial_state) = None.
Proof.
  split; [reflexivity|]. split; [reflexivity|].
  rewrite (proj1 (createUser_sends_the_form initial_state (str "ann"))
             eq_refl eq_refl).
  reflexivity.
Defined.

Lemma count_ok (fetch : jsstring -> delete_response) urls : forall count,
  fold_left
    (fun successCount url =>
       match fetch url with
       | DeleteDone true => (successCount + 1)%Z
       | _ => successCount
       end)
    urls count
  = (count
     + Z.of_nat
         (length (filter (fun url => match fetch url with
                                     | DeleteDone true => true
                                     | _ => false
                                     end) urls)))%Z.
Proof.
  induction urls as [|url urls IH]; intros count; cbn [fold_left filter].
  - cbn. lia.
  - rewrite IH. destruct (fetch url) as [|[|]]; cbn [length]; lia.
Qed.

(** X15.  [deleteSelectedUsers] without a selection shows "No users
    selected" and requests nothing; when the dialog is declined it does
    nothing at all.  Otherwise it requests [/api/users/id] once for every
    selected user, in the order of selection, and empties the selection; the
    alert is a success alert whatever the server answered, with the number of
    requests that came back ok, down to 0.  The day-of ratings of the deleted
    users and [lastSelectedUser] are left as they were. *)
Theorem deleteSelectedUsers_requests_each_user :
  forall (confirm : jsstring -> bool) (fetch : jsstring -> delete_response)
         (st : state),
    (selectedUsers st = [] ->
     deleteSelectedUsers confirm fetch st
     = (showAlert listAlert (str "No users selected") AlertError st, []))
    /\ (selectedUsers st <> [] ->
        confirm (str "Delete "
                 ++ string_of_Z (JSSet.size (selectedUsers st))
                 ++ str " user(s)?") = false ->
        deleteSelectedUsers confirm fetch st = (st, []))
    /\ (selectedUsers st <> [] ->
        confirm (str "Delete "
                 ++ string_of_Z (JSSet.size (selectedUsers st))
                 ++ str " user(s)?") = true ->
        let (st', urls) := deleteSelectedUsers confirm fetch st in
        let deleted :=
          filter (fun url => match fetch url with
                             | DeleteDone true => true
                             | _ => false
                             end) urls in
        urls = map (fun userId => str "/api/users/" ++ string_of_Z userId)
                 (selectedUsers st)
        /\ selectedUsers st' = []
        /\ alerts st' listAlert
           = Some {| alert_message :=
                       str "Successfully deleted "
                       ++ string_of_Z (Z.of_nat (length deleted))
                       ++ str " user(s)";
                     alert_class := AlertSuccess |}
        /\ (length deleted <= length (selectedUsers st))%nat
        /\ dayofRatingsByUser st' = dayofRatingsByUser st
        /\ lastSelectedUser st' = lastSelectedUser st).
Proof.
  intros confirm fetch st. split; [|split].
  - intros E. unfold deleteSelectedUsers. rewrite E. reflexivity.
  - intros N C. unfold deleteSelectedUsers.
    destruct (JSSet.size (selectedUsers st) =? 0)%Z eqn:E.
    + unfold JSSet.size in E.
      destruct (selectedUsers st); [contradiction | discriminate].
    + rewrite C. reflexivity.
  - intros N C. unfold deleteSelectedUsers.
    destruct (JSSet.size (selectedUsers st) =? 0)%Z eqn:E.
    + unfold JSSet.size in E.
      destruct (selectedUsers st); [contradiction | discriminate].
    + rewrite C. cbn [negb]. cbv zeta. rewrite count_ok.
      unfold JSSet.elements.
      split; [reflexivity|]. split; [reflexivity|].
      split; [reflexivity|].
      split; [|split; reflexivity].
      etransitivity; [apply filter_length_le|]. rewrite length_map. lia.
Qed.

(** An instance of X15: users 1 and 2 selected, a server that fails on every
    request. *)
Lemma deleteSelectedUsers_requests_each_user_witness :
  let (st', urls) :=
    deleteSelectedUsers (fun _ => true) (fun _ => DeleteRejected)
      two_users_selected in
  urls = [str "/api/users/1"; str "/api/users/2"]
  /\ selectedUsers st' = []
  /\ alerts st' listAlert
     = Some {| alert_message := str "Successfully deleted 0 user(s)";
               alert_class := AlertSuccess |}.
Proof.
  pose proof (proj2 (proj2 (deleteSelectedUsers_requests_each_user
                              (fun _ => true) (fun _ => DeleteRejected)
                              two_users_selected))) as A.
  assert (N : selectedUsers two_users_selected <> []) by discriminate.
  specialize (A N eq_refl).
  destruct (deleteSelectedUsers _ _ _) as [st' urls].
  destruct A as (U & S & M & _).
  split; [rewrite U; vm_compute; reflexivity|]. split; [exact S|].
  rewrite M, U. vm_compute. reflexivity.
Defined.

(** X16.  [saveAllDayofRatings] sends a request only when exactly one user
    is selected and the last selected user has a day-of map.  It sends every
    rating of the map of the last selected user, in order, each under the id
    of the one selected user: these are that user's own ratings when the last
    selected user is the selected one, as it is in a sound selection whose
    [lastSelectedUser] is not -1. *)
Theorem saveAllDayofRatings_sends_the_shown_ratings :
  forall (st : state) (sent : list bulk_rating),
    saveAllDayofRatings st = Some sent ->
    exists userId dayofRatings,
      selectedUsers st = [userId]
      /\ JSMap.get (lastSelectedUser st) (dayofRatingsByUser st)
         = Some dayofRatings
      /\ map bulk_user_id sent = map (fun _ => userId) dayofRatings
      /\ map bulk_rating_of sent
         = map (fun kv => override_of (snd kv)) dayofRatings
      /\ (selection_ok st -> lastSelectedUser st <> (-1)%Z ->
          userId = lastSelectedUser st).
Proof.
  intros st sent E. unfold saveAllDayofRatings in E.
  destruct (Z.eqb_spec (JSSet.size (selectedUsers st)) 1) as [S|S];
    [|discriminate].
  cbn [negb] in E. unfold JSSet.elements, JSSet.size in *.
  destruct (selectedUsers st) as [|userId [|u l]] eqn:Sel;
    try (cbn [length] in S; lia).
  destruct (JSMap.get (lastSelectedUser st) (dayofRatingsByUser st))
    as [m|] eqn:G; [|discriminate].
  injection E as <-. exists userId, m.
  split; [reflexivity|]. split; [reflexivity|].
  rewrite !map_map. cbn [bulk_user_id bulk_rating_of JSMap.entries].
  split; [reflexivity|]. split; [reflexivity|].
  unfold selection_ok. rewrite Sel. cbn [In]. intuition congruence.
Qed.

(** An instance of X16: user 1 alone, with two day-of ratings. *)
Lemma saveAllDayofRatings_sends_the_shown_ratings_witness :
  saveAllDayofRatings thai_rated_high
  = Some [ {| bulk_user_id := 1;
              bulk_rating_of := CuisineRating (str "Thai") 8.5 |};
           {| bulk_user_id := 1;
              bulk_rating_of := RestaurantRating 4 5.0 |} ]
  /\ exists userId dayofRatings,
       selectedUsers thai_rated_high = [userId]
       /\ JSMap.get (lastSelectedUser thai_rated_high)
            (dayofRatingsByUser thai_rated_high) = Some dayofRatings.
Proof.
  assert (E : saveAllDayofRatings thai_rated_high
              = Some [ {| bulk_user_id := 1;
                          bulk_rating_of := CuisineRating (str "Thai") 8.5 |};
                       {| bulk_user_id := 1;
                          bulk_rating_of := RestaurantRating 4 5.0 |} ])
    by reflexivity.
  split; [exact E|].
  destruct (saveAllDayofRatings_sends_the_shown_ratings _ E)
    as (userId & m & A & B & _).
  exists userId, m. split; assumption.
Defined.

(** ** The catalog and its cuisines *)

Lemma extractCuisines_In st tag :
  In tag (allCuisines (extractCuisines st))
  <-> tag <> []
      /\ exists r piece,
          In r (allRestaurants st)
          /\ In piece (split comma (Restaurant.cuisine r))
          /\ tag = trim piece.
Proof.
  rewrite extractCuisines_unfold.
  set (found := collect JSSet.empty (allRestaurants st)).
  assert (P : Permutation found (JSStringSort.sort found))
    by apply JSStringSort.Permuted_sort.
  split.
  - intros I. apply (Permutation_in _ (Permutation_sym P)) in I.
    apply collect_In in I. destruct I as [[] | I]. assumption.
  - intros I. apply (Permutation_in _ P). apply collect_In. auto.
Qed.


Lemma cuisines_derived_same st st' :
  allRestaurants st' = allRestaurants st ->
  allCuisines st' = allCuisines st ->
  cuisines_derived st -> cuisines_derived st'.
Proof.
  unfold cuisines_derived. rewrite !extractCuisines_unfold.
  intros -> ->. tauto.
Qed.

Lemma removeDayofRating_keeps_catalog key st :
  allRestaurants (removeDayofRating key st) = allRestaurants st
  /\ allCuisines (removeDayofRating key st) = allCuisines st.
Proof.
  unfold removeDayofRating.
  destruct (JSMap.get (lastSelectedUser st) (dayofRatingsByUser st));
    split; reflexivity.
Qed.

Lemma run_dayof_op_keeps_catalog parseFloat op st :
  allRestaurants (run_dayof_op parseFloat op st) = allRestaurants st
  /\ allCuisines (run_dayof_op parseFloat op st) = allCuisines st.
Proof.
  destruct op as [cuisine | id | key value | key]; cbn [run_dayof_op].
  - rewrite toggleDayofCuisine_unfold.
    destruct (toggleDayof_keeps_catalog (str "c-" ++ cuisine)
                (DayofCuisine cuisine 5.0) st) as (A & B & _). auto.
  - rewrite toggleDayofRestaurant_unfold.
    destruct (toggleDayof_keeps_catalog (str "r-" ++ string_of_Z id)
                (DayofRestaurant id 5.0) st) as (A & B & _). auto.
  - unfold updateDayofRating.
    destruct (JSMap.get (lastSelectedUser st) (dayofRatingsByUser st)) as [m|];
      [|split; reflexivity].
    destruct (JSMap.get key m); split; reflexivity.
  - apply removeDayofRating_keeps_catalog.
Qed.

Lemma cuisines_derived_handle parseFloat e st :
  cuisines_derived st -> cuisines_derived (handle parseFloat e st).
Proof.
  intros OK. destruct e; cbn [handle];
    try (revert OK; apply cuisines_derived_same; reflexivity).
  - unfold switchScreen.
    destruct newScreen as [[|c s]|]; destruct (currentScreen st);
      revert OK; apply cuisines_derived_same; reflexivity.
  - destruct res as [|restaurants]; cbn [loadRestaurants_resume].
    + revert OK. apply cuisines_derived_same; reflexivity.
    + unfold cuisines_derived. rewrite !extractCuisines_unfold. reflexivity.
  - unfold toggleCuisine. destruct (JSMap.has _ _);
      revert OK; apply cuisines_derived_same; reflexivity.
  - unfold toggleRestaurant. destruct (JSMap.has _ _);
      revert OK; apply cuisines_derived_same; reflexivity.
  - unfold createUser. destruct (_ && _);
      revert OK; apply cuisines_derived_same; reflexivity.
  - destruct res; revert OK; apply cuisines_derived_same; reflexivity.
  - unfold toggleUser. destruct (JSSet.has _ _);
      revert OK; apply cuisines_derived_same; reflexivity.
  - unfold deleteSelectedUsers.
    destruct (_ =? _)%Z; [|destruct (negb _)];
      revert OK; apply cuisines_derived_same; reflexivity.
  - destruct (run_dayof_op_keeps_catalog parseFloat op st) as [A B].
    revert OK. apply cuisines_derived_same; assumption.
  - destruct rejected; revert OK; apply cuisines_derived_same; reflexivity.
  - unfold callMagic. destruct (_ <? _)%Z;
      revert OK; apply cuisines_derived_same; reflexivity.
  - destruct res as [m | m | body]; cbn [callMagic_resume];
      try (revert OK; apply cuisines_derived_same; reflexivity).
    unfold renderMatchingList. cbn [matching switchScreen str].
    revert OK. apply cuisines_derived_same;
      destruct body as [[|e l]|]; reflexivity.
Qed.

Lemma cuisines_derived_fold parseFloat events : forall st,
  cuisines_derived st ->
  cuisines_derived (fold_left (fun st e => handle parseFloat e st) events st).
Proof.
  induction events as [|e events IH]; intros st OK; [assumption|].
  cbn. apply IH, cuisines_derived_handle, OK.
Qed.



(** *** Trimmed tags *)

Lemma trimStart_In c s : In c (trimStart s) -> In c s.
Proof.
  induction s as [|x s IH]; [auto|]. cbn [trimStart].
  destruct (is_whitespace x); [|auto]. intros I. right. auto.
Qed.

Lemma trimStart_head s :
  trimStart s = []
  \/ exists c t, trimStart s = c :: t /\ is_whitespace c = false.
Proof.
  induction s as [|x s IH]; [left; reflexivity|]. cbn [trimStart].
  destruct (is_whitespace x) eqn:W; [exact IH|]. right. eauto.
Qed.

Lemma trimStart_stops c t :
  is_whitespace c = false -> trimStart (c :: t) = c :: t.
Proof. intros W. cbn [trimStart]. rewrite W. reflexivity. Qed.

Lemma trimStart_app_stops c : forall l,
  is_whitespace c = false -> trimStart (l ++ [c]) = trimStart l ++ [c].
Proof.
  intros l W. induction l as [|x l IH].
  - apply trimStart_stops, W.
  - cbn [app trimStart]. destruct (is_whitespace x); [exact IH | reflexivity].
Qed.

Lemma trimEnd_In c s : In c (trimEnd s) -> In c s.
Proof.
  unfold trimEnd. intros I. apply in_rev in I. apply trimStart_In in I.
  apply in_rev in I. exact I.
Qed.

Lemma trimEnd_cons c t :
  is_whitespace c = false -> trimEnd (c :: t) = c :: trimEnd t.
Proof.
  intros W. unfold trimEnd. cbn [rev].
  rewrite (@trimStart_app_stops c (rev t) W), rev_app_distr. reflexivity.
Qed.

Lemma trimEnd_last s :
  trimEnd s = []
  \/ exists t c, trimEnd s = t ++ [c] /\ is_whitespace c = false.
Proof.
  unfold trimEnd. destruct (trimStart_head (rev s)) as [-> | (c & t & -> & W)].
  - left. reflexivity.
  - right. exists (rev t), c. split; [reflexivity | exact W].
Qed.

Lemma trimEnd_idem s : trimEnd (trimEnd s) = trimEnd s.
Proof.
  unfold trimEnd. rewrite rev_involutive.
  destruct (trimStart_head (rev s)) as [-> | (c & t & -> & W)];
    [reflexivity|].
  rewrite (@trimStart_stops c t W). reflexivity.
Qed.

Lemma trim_In c s : In c (trim s) -> In c s.
Proof. unfold trim. intros I. apply trimStart_In, trimEnd_In, I. Qed.

Lemma trim_head s :
  trim s = [] \/ exists c t, trim s = c :: t /\ is_whitespace c = false.
Proof.
  unfold trim. destruct (trimStart_head s) as [-> | (c & t & -> & W)].
  - left. reflexivity.
  - right. exists c, (trimEnd t). split; [apply trimEnd_cons, W | exact W].
Qed.

Lemma trim_idem s : trim (trim s) = trim s.
Proof.
  destruct (trim_head s) as [-> | (c & t & E & W)]; [reflexivity|].
  unfold trim at 1. rewrite E, (@trimStart_stops c t W), <- E.
  unfold trim. apply trimEnd_idem.
Qed.

Lemma split_In_piece sep : forall s piece c,
  In piece (split sep s) -> In c piece -> c <> sep /\ In c s.
Proof.
  induction s as [|x s IH]; intros piece c I J.
  - destruct I as [<- | []]. destruct J.
  - cbn [split] in I. destruct (N.eqb_spec x sep) as [-> | D].
    + destruct I as [<- | I]; [destruct J|].
      destruct (IH _ _ I J). split; [assumption | right; assumption].
    + destruct (split sep s) as [|p ps] eqn:S.
      * destruct I as [<- | []]. destruct J as [<- | []].
        split; [assumption | left; reflexivity].
      * destruct I as [<- | I].
        -- destruct J as [<- | J]; [split; [assumption | left; reflexivity]|].
           destruct (IH p c (or_introl eq_refl) J).
           split; [assumption | right; assumption].
        -- destruct (IH piece c (or_intror I) J).
           split; [assumption | right; assumption].
Qed.

(** X18.  Every cuisine the page ever lists is a clean tag: it is not empty,
    holds no comma, begins and ends with a code unit that is not white
    space, so that trimming it again changes nothing, and each of its code
    units occurs in the cuisine string of a restaurant of the catalog. *)
Theorem listed_cuisines_are_clean_tags :
  forall (parseFloat : jsstring -> float) (events : list event)
         (tag : jsstring),
    let st := run parseFloat events in
    In tag (allCuisines st) ->
    tag <> []
    /\ ~ In comma tag
    /\ is_whitespace (hd comma tag) = false
    /\ is_whitespace (last tag comma) = false
    /\ trim tag = tag
    /\ exists r, In r (allRestaurants st)
                 /\ forall c, In c tag -> In c (Restaurant.cuisine r).
Proof.
  intros parseFloat events tag st I.
  assert (OK : cuisines_derived st).
  { apply cuisines_derived_fold. reflexivity. }
  rewrite OK in I. apply extractCuisines_In in I.
  destruct I as (N & r & piece & R & P & ->).
  assert (Sub : forall c, In c (trim piece) ->
                          c <> comma /\ In c (Restaurant.cuisine r)).
  { intros c J. apply (split_In_piece _ _ _ _ P), trim_In, J. }
  split; [exact N|]. split; [|split; [|split; [|split]]].
  - intros J. destruct (Sub _ J) as [D _]. apply D. reflexivity.
  - destruct (trim_head piece) as [E | (c & t & E & W)]; [contradiction|].
    rewrite E. exact W.
  - unfold trim in *. destruct (trimEnd_last (trimStart piece))
      as [E | (t & c & E & W)]; [contradiction|].
    rewrite E, last_last. exact W.
  - apply trim_idem.
  - exists r. split; [exact R|]. intros c J. apply (Sub c J).
Qed.

(** An instance of X18: " Vegan " of the second restaurant is listed as
    "Vegan". *)
Lemma listed_cuisines_are_clean_tags_witness :
  In (str "Vegan")
     (allCuisines
        (run (fun _ => 5.0) [LoadedRestaurants (RestaurantsJson catalog)]))
  /\ trim (str "Vegan") = str "Vegan"
  /\ is_whitespace (last (str "Vegan") comma) = false.
Proof.
  assert (I : In (str "Vegan")
                (allCuisines
                   (run (fun _ => 5.0)
                      [LoadedRestaurants (RestaurantsJson catalog)]))).
  { vm_compute. right. right. left. reflexivity. }
  destruct (@listed_cuisines_are_clean_tags (fun _ => 5.0)
              [LoadedRestaurants (RestaurantsJson catalog)] (str "Vegan") I)
    as (_ & _ & _ & L & T & _).
  split; [exact I|]. split; [exact T | exact L].
Defined.
